(** * pal_time.c: file times and monotonic timestamps of System.Native

    A shallow embedding of [src/Native/Unix/System.Native/pal_time.c].
    The C functions are thin wrappers around host primitives ([utime],
    [utimes], [clock_gettime], [mach_timebase_info], [mach_absolute_time],
    [gettimeofday]) and around the portability helper
    [mono_portability_find_file].  The host is an interface ([Host]); the
    C code is written in a small state-and-stop monad over a [World] that
    holds the thread's [errno], the global [mono_io_portability_helpers],
    the kernel state and the log of the calls made so far. *)

From Stdlib Require Import ZArith List String Bool Lia QArith.
Import ListNotations.
Local Open Scope Z_scope.

(** ** Machine integers *)

(** Conversion to [uint64_t], and 64-bit unsigned arithmetic. *)
Definition to_uint64 (z : Z) : Z := z mod 2 ^ 64.
Definition mul64 (a b : Z) : Z := to_uint64 (a * b).
Definition add64 (a b : Z) : Z := to_uint64 (a + b).

(** Conversion to a signed integer type of [bits] bits ([time_t], [long]). *)
Definition to_signed (bits z : Z) : Z :=
  (z + 2 ^ (bits - 1)) mod 2 ^ bits - 2 ^ (bits - 1).

(** ** Constants *)

(** [<errno.h>] and [<mach/kern_return.h>]; the values of Linux, macOS and
    the BSDs. *)
Definition ENOENT : Z := 2.
Definition EINTR : Z := 4.
Definition KERN_SUCCESS : Z := 0.

Definition PORTABILITY_NONE : Z := 0.
Definition PORTABILITY_UNKNOWN : Z := 1.
Definition PORTABILITY_DRIVE : Z := 2.
Definition PORTABILITY_CASE : Z := 4.

Definition SecondsToMicroSeconds : Z := 1000000.
Definition SecondsToNanoSeconds : Z := 1000000000.

(** ** Build configuration

    The preprocessor symbols of [pal_config.h] and [config.h] the file
    branches on, [NDEBUG] (which turns [assert] off), and the widths of
    [time_t], [long] and [suseconds_t] on the target ([suseconds_t] is a
    [long] on Linux and a 32-bit integer on Darwin). *)
Record Config : Type := mkConfig {
  HAVE_CLOCK_MONOTONIC : bool;
  HAVE_MACH_ABSOLUTE_TIME : bool;
  HAVE_MACH_TIMEBASE_INFO : bool;
  DISABLE_PORTABILITY : bool;
  NDEBUG : bool;
  time_t_bits : Z;
  long_bits : Z;
  suseconds_t_bits : Z
}.

(** ** Structures *)

(** Modelled from the spec: [UTimBuf] and [TimeValPair] are declared in
    [pal_time.h], which is not among the sources.  The fields are those
    [ConvertUTimBuf] and [ConvertTimeValPair] read; the spec has each time
    "expressed as whole seconds plus sub-second fraction", integers here. *)
Record UTimBuf : Type := mkUTimBuf { AcTime : Z; ModTime : Z }.

Record TimeValPair : Type := mkTimeValPair {
  AcTimeSec : Z; AcTimeUSec : Z; ModTimeSec : Z; ModTimeUSec : Z
}.

(** [struct utimbuf] of [<utime.h>]. *)
Record utimbuf : Type := mkutimbuf { actime : Z; modtime : Z }.

(** [struct timeval] and [struct timespec]; both have a [tv_sec] field, so
    each record lives in a module of its own. *)
Module timeval.
Record t : Type := mk { tv_sec : Z; tv_usec : Z }.
End timeval.

Module timespec.
Record t : Type := mk { tv_sec : Z; tv_nsec : Z }.
End timespec.

(** [mach_timebase_info_data_t]: two [uint32_t]. *)
Record mach_timebase_info_data_t : Type := mkTimebase { numer : Z; denom : Z }.

Definition ConvertUTimBuf (cfg : Config) (pal : UTimBuf) : utimbuf :=
  {| actime := to_signed (time_t_bits cfg) (AcTime pal);
     modtime := to_signed (time_t_bits cfg) (ModTime pal) |}.

(** Each field is cast to [long] and then stored in a [time_t] ([tv_sec])
    or a [suseconds_t] ([tv_usec]). *)
Definition ConvertTimeValPair (cfg : Config) (pal : TimeValPair)
  : timeval.t * timeval.t :=
  (timeval.mk
     (to_signed (time_t_bits cfg) (to_signed (long_bits cfg) (AcTimeSec pal)))
     (to_signed (suseconds_t_bits cfg)
        (to_signed (long_bits cfg) (AcTimeUSec pal))),
   timeval.mk
     (to_signed (time_t_bits cfg) (to_signed (long_bits cfg) (ModTimeSec pal)))
     (to_signed (suseconds_t_bits cfg)
        (to_signed (long_bits cfg) (ModTimeUSec pal)))).

(** ** The host *)

(** What a system call reports: success, or failure with an error code. *)
Inductive Outcome : Type :=
| SysOk
| SysErr (e : Z).

(** The primitives the file calls.  Each one steps the kernel state.
    [host_find_file] is [mono_portability_find_file]: it yields the located
    name ([None] for [NULL]) and the value it leaves in [errno], if it
    touches it.  [host_clock_gettime] is [clock_gettime (CLOCK_MONOTONIC, _)]
    and [host_gettimeofday] is [gettimeofday (_, NULL)]; both yield the
    contents of the structure after the call. *)
Class Host : Type := {
  kernel : Type;
  host_utime : string -> utimbuf -> kernel -> Outcome * kernel;
  host_utimes : string -> timeval.t * timeval.t -> kernel -> Outcome * kernel;
  host_find_file :
    string -> bool -> kernel -> option string * option Z * kernel;
  host_clock_gettime : kernel -> Outcome * timespec.t * kernel;
  host_mach_timebase_info : kernel -> Z * mach_timebase_info_data_t * kernel;
  host_mach_absolute_time : kernel -> Z * kernel;
  host_gettimeofday : kernel -> Outcome * timeval.t * kernel
}.

(** The calls a run makes, most recent first. *)
Inductive Event : Type :=
| EvUtime (path : string) (times : utimbuf) (o : Outcome)
| EvUtimes (path : string) (times : timeval.t * timeval.t) (o : Outcome)
| EvFindFile (path : string) (last_exists : bool) (found : option string)
| EvFree (mem : string).

Section Program.

Context {H : Host}.

Record World : Type := mkWorld {
  errno : Z;
  mono_io_portability_helpers : Z;
  kern : kernel;
  trace : list Event
}.

Definition with_errno (e : Z) (w : World) : World :=
  mkWorld e (mono_io_portability_helpers w) (kern w) (trace w).

Definition with_kern (k : kernel) (w : World) : World :=
  mkWorld (errno w) (mono_io_portability_helpers w) k (trace w).

Definition with_event (ev : Event) (w : World) : World :=
  mkWorld (errno w) (mono_io_portability_helpers w) (kern w) (ev :: trace w).

(** ** The monad of the C code *)

Inductive Stop : Type :=
| AssertFailed      (* [assert] failed in a build without [NDEBUG] *)
| DivisionByZero    (* integer division by zero: no defined behaviour *)
| NullDereference   (* a read through a null pointer: no defined behaviour *)
| FuelExhausted.    (* a retry loop was still running when the fuel ran out *)

Inductive Run (A : Type) : Type :=
| Returned (a : A)
| Stopped (why : Stop).

Arguments Returned {A} a.
Arguments Stopped {A} why.

Definition M (A : Type) : Type := World -> Run (A * World).

Definition ret {A} (a : A) : M A := fun w => Returned (a, w).

Definition bind {A B} (m : M A) (f : A -> M B) : M B :=
  fun w => match m w with
           | Returned (a, w') => f a w'
           | Stopped why => Stopped why
           end.

Definition stop {A} (why : Stop) : M A := fun _ => Stopped why.

Notation "x <- m ;; k" := (bind m (fun x => k))
  (at level 61, m at next level, right associativity).
Notation "' pat <- m ;; k" := (bind m (fun x => match x with pat => k end))
  (at level 61, pat pattern, m at next level, right associativity).
Notation "m ;;; k" := (bind m (fun _ => k))
  (at level 61, right associativity).

Definition get_errno : M Z := fun w => Returned (errno w, w).
Definition set_errno (e : Z) : M unit := fun w => Returned (tt, with_errno e w).

Definition assert (cfg : Config) (c : bool) : M unit :=
  if NDEBUG cfg || c then ret tt else stop AssertFailed.

(** ** The C library over the host *)

(** A failing call returns -1 and stores its error code in [errno]; a
    call that succeeds returns 0 and leaves [errno] alone. *)
Definition libc_result (o : Outcome) : Z :=
  match o with SysOk => 0 | SysErr _ => -1 end.

Definition libc_errno (o : Outcome) (old : Z) : Z :=
  match o with SysOk => old | SysErr e => e end.

Definition syscall (sys : kernel -> Outcome * kernel) (ev : Outcome -> Event)
  : M Z :=
  fun w => let (o, k) := sys (kern w) in
           Returned (libc_result o,
                     mkWorld (libc_errno o (errno w))
                             (mono_io_portability_helpers w) k
                             (ev o :: trace w)).

Definition utime (path : string) (times : utimbuf) : M Z :=
  syscall (host_utime path times) (EvUtime path times).

Definition utimes (path : string) (times : timeval.t * timeval.t) : M Z :=
  syscall (host_utimes path times) (EvUtimes path times).

Definition clock_gettime : M (Z * timespec.t) :=
  fun w => let '(o, ts, k) := host_clock_gettime (kern w) in
           Returned ((libc_result o, ts),
                     with_kern k (with_errno (libc_errno o (errno w)) w)).

Definition gettimeofday : M (Z * timeval.t) :=
  fun w => let '(o, tv, k) := host_gettimeofday (kern w) in
           Returned ((libc_result o, tv),
                     with_kern k (with_errno (libc_errno o (errno w)) w)).

Definition mach_timebase_info : M (Z * mach_timebase_info_data_t) :=
  fun w => let '(kr, info, k) := host_mach_timebase_info (kern w) in
           Returned ((kr, info), with_kern k w).

Definition mach_absolute_time : M Z :=
  fun w => let (t, k) := host_mach_absolute_time (kern w) in
           Returned (t, with_kern k w).

(** [g_free]: releases the buffer; [errno] is left as it was. *)
Definition g_free (mem : string) : M unit :=
  fun w => Returned (tt, with_event (EvFree mem) w).

(** ** The portability helpers (MONO_IO_PORTABILITY_H) *)

Definition mono_portability_find_file (cfg : Config) (pathname : string)
  (last_exists : bool) : M (option string) :=
  if DISABLE_PORTABILITY cfg then ret None
  else fun w =>
    let '(found, clobber, k) := host_find_file pathname last_exists (kern w) in
    Returned (found,
              mkWorld (match clobber with Some e => e | None => errno w end)
                      (mono_io_portability_helpers w) k
                      (EvFindFile pathname last_exists found :: trace w)).

Definition IS_PORTABILITY_SET (cfg : Config) : M bool :=
  if DISABLE_PORTABILITY cfg then ret false
  else fun w => Returned (0 <? mono_io_portability_helpers w, w).

(** ** Retrying interrupted calls *)

(** Modelled from the spec: [CheckInterrupted] of [pal_utilities.h], which is
    not among the sources.  The spec has every system call "retried
    transparently on interrupt signals (EINTR-class interruption) until
    they return a definitive result": a result is an interruption when the
    call failed and [errno] is [EINTR]. *)
Definition CheckInterrupted (result : Z) : M bool :=
  e <- get_errno ;; ret ((result <? 0) && (e =? EINTR)).

(** [while (CheckInterrupted(result = call));] with at most [fuel] calls. *)
Fixpoint retry_interrupted (fuel : nat) (call : M Z) : M Z :=
  match fuel with
  | O => stop FuelExhausted
  | S n =>
      result <- call ;;
      again <- CheckInterrupted result ;;
      if again then retry_interrupted n call else ret result
  end.

(** ** SystemNative_UTime and SystemNative_UTimes *)

(** The body after [assert(times != NULL)], with [times] the structure the
    pointer points to; the assertion and the pointer are in
    [SystemNative_UTime_ptr] and [SystemNative_UTimes_ptr] below.  [fuel]
    bounds the calls of each of the two retry loops. *)
Definition SystemNative_UTime (cfg : Config) (fuel : nat)
  (path : string) (times : UTimBuf) : M Z :=
  let temp := ConvertUTimBuf cfg times in
  result <- retry_interrupted fuel (utime path temp) ;;
  e <- get_errno ;;
  set <- IS_PORTABILITY_SET cfg ;;
  if (result =? -1) && (e =? ENOENT) && set then
    saved_errno <- get_errno ;;
    located_filename <- mono_portability_find_file cfg path true ;;
    match located_filename with
    | None => set_errno saved_errno ;;; ret (-1)
    | Some located =>
        result <- retry_interrupted fuel (utime located temp) ;;
        g_free located ;;;
        ret result
    end
  else ret result.

Definition SystemNative_UTimes (cfg : Config) (fuel : nat)
  (path : string) (times : TimeValPair) : M Z :=
  let temp := ConvertTimeValPair cfg times in
  result <- retry_interrupted fuel (utimes path temp) ;;
  e <- get_errno ;;
  set <- IS_PORTABILITY_SET cfg ;;
  if (result =? -1) && (e =? ENOENT) && set then
    saved_errno <- get_errno ;;
    located_filename <- mono_portability_find_file cfg path true ;;
    match located_filename with
    | None => set_errno saved_errno ;;; ret (-1)
    | Some located =>
        result <- retry_interrupted fuel (utimes located temp) ;;
        g_free located ;;;
        ret result
    end
  else ret result.

(** The two functions as they are called, [times] being a pointer, [None]
    for [NULL]: [assert(times != NULL)] of lines 83 and 109, then the
    conversion, which reads through the pointer, then the rest of the
    body. *)
Definition deref {A} (p : option A) : M A :=
  match p with Some a => ret a | None => stop NullDereference end.

Definition not_null {A} (p : option A) : bool :=
  match p with Some _ => true | None => false end.

Definition SystemNative_UTime_ptr (cfg : Config) (fuel : nat)
  (path : string) (times : option UTimBuf) : M Z :=
  assert cfg (not_null times) ;;;
  pal <- deref times ;;
  SystemNative_UTime cfg fuel path pal.

Definition SystemNative_UTimes_ptr (cfg : Config) (fuel : nat)
  (path : string) (times : option TimeValPair) : M Z :=
  assert cfg (not_null times) ;;;
  pal <- deref times ;;
  SystemNative_UTimes cfg fuel path pal.

(** ** Timestamps *)

(** Unsigned 64-bit division. *)
Definition udiv64 (a b : Z) : M Z :=
  if b =? 0 then stop DivisionByZero else ret (a / b).

(** The out-parameter is returned next to the [int32_t] result: the
    timestamp functions below are the code for an out-pointer that is not
    null; [assert(resolution)] and [assert(timestamp)] (lines 136, 176 and
    208), which check that pointer, are not part of them. *)
Definition SystemNative_GetTimestampResolution (cfg : Config) : M (Z * Z) :=
  if HAVE_CLOCK_MONOTONIC cfg then
    '(r, _) <- clock_gettime ;;
    if r =? 0 then ret (1, SecondsToNanoSeconds) else ret (0, 0)
  else if HAVE_MACH_ABSOLUTE_TIME cfg then
    '(kr, mtid) <- mach_timebase_info ;;
    if kr =? KERN_SUCCESS then
      q <- udiv64 (to_uint64 (denom mtid)) (to_uint64 (numer mtid)) ;;
      ret (1, mul64 SecondsToNanoSeconds q)
    else ret (0, 0)
  else ret (1, SecondsToMicroSeconds).

Definition SystemNative_GetTimestamp (cfg : Config) : M (Z * Z) :=
  if HAVE_CLOCK_MONOTONIC cfg then
    '(result, ts) <- clock_gettime ;;
    assert cfg (result =? 0) ;;;
    ret (1, add64 (mul64 (to_uint64 (timespec.tv_sec ts)) SecondsToNanoSeconds)
                  (to_uint64 (timespec.tv_nsec ts)))
  else if HAVE_MACH_ABSOLUTE_TIME cfg then
    t <- mach_absolute_time ;; ret (1, t)
  else
    '(r, tv) <- gettimeofday ;;
    if r =? 0 then
      ret (1, add64 (mul64 (to_uint64 (timeval.tv_sec tv)) SecondsToMicroSeconds)
                    (to_uint64 (timeval.tv_usec tv)))
    else ret (0, 0).

Definition SystemNative_GetAbsoluteTime (cfg : Config) : M (Z * Z) :=
  if HAVE_MACH_ABSOLUTE_TIME cfg then
    t <- mach_absolute_time ;; ret (1, t)
  else ret (0, 0).

(** Both out-parameters are returned next to the result:
    (result, numer, denom). *)
Definition SystemNative_GetTimebaseInfo (cfg : Config) : M (Z * Z * Z) :=
  if HAVE_MACH_TIMEBASE_INFO cfg then
    '(r, timebase) <- mach_timebase_info ;;
    assert cfg (r =? KERN_SUCCESS) ;;;
    if r =? KERN_SUCCESS then ret (1, numer timebase, denom timebase)
    else ret (1, 1, 1)
  else ret (1, 1, 1).

End Program.

Arguments Returned {A} a.
Arguments Stopped {A} why.

(** ** The two entry points that set file times, as one *)

(** [SystemNative_UTime] takes whole seconds, [SystemNative_UTimes] seconds
    and microseconds; apart from the system call they issue the two are
    the same code. *)
Inductive FileTimes : Type :=
| Seconds (times : UTimBuf)
| SecondsAndMicros (times : TimeValPair).

Definition SetFileTimes {H : Host} (cfg : Config) (fuel : nat) (path : string)
  (t : FileTimes) : M Z :=
  match t with
  | Seconds times => SystemNative_UTime cfg fuel path times
  | SecondsAndMicros times => SystemNative_UTimes cfg fuel path times
  end.

(** The system call an entry point issues on [path], and its log entry. *)
Definition host_set_times {H : Host} (cfg : Config) (t : FileTimes)
  (path : string) : kernel -> Outcome * kernel :=
  match t with
  | Seconds times => host_utime path (ConvertUTimBuf cfg times)
  | SecondsAndMicros times => host_utimes path (ConvertTimeValPair cfg times)
  end.

Definition set_times_event (cfg : Config) (t : FileTimes) (path : string)
  : Outcome -> Event :=
  match t with
  | Seconds times => EvUtime path (ConvertUTimBuf cfg times)
  | SecondsAndMicros times => EvUtimes path (ConvertTimeValPair cfg times)
  end.

(** The pointer an entry point is handed, and what it points to. *)
Inductive TimesPtr : Type :=
| SecondsPtr (times : option UTimBuf)
| SecondsAndMicrosPtr (times : option TimeValPair).

Definition pointee (tp : TimesPtr) : option FileTimes :=
  match tp with
  | SecondsPtr times => option_map Seconds times
  | SecondsAndMicrosPtr times => option_map SecondsAndMicros times
  end.

Definition SetFileTimes_ptr {H : Host} (cfg : Config) (fuel : nat)
  (path : string) (tp : TimesPtr) : M Z :=
  match tp with
  | SecondsPtr times => SystemNative_UTime_ptr cfg fuel path times
  | SecondsAndMicrosPtr times => SystemNative_UTimes_ptr cfg fuel path times
  end.

(** ** Reading the log *)

Definition is_interrupted (o : Outcome) : bool :=
  match o with SysErr e => e =? EINTR | SysOk => false end.

Definition event_outcome (ev : Event) : option Outcome :=
  match ev with
  | EvUtime _ _ o | EvUtimes _ _ o => Some o
  | EvFindFile _ _ _ | EvFree _ => None
  end.

(** The outcome of the most recent system call in a log. *)
Fixpoint last_syscall (tr : list Event) : option Outcome :=
  match tr with
  | [] => None
  | ev :: older =>
      match event_outcome ev with
      | Some o => Some o
      | None => last_syscall older
      end
  end.

Definition is_lookup (ev : Event) : bool :=
  match ev with EvFindFile _ _ _ => true | _ => false end.

Definition lookups (tr : list Event) : list Event := filter is_lookup tr.

(** The same call as [ev], whatever its outcome. *)
Definition same_call (ev ev' : Event) : bool :=
  match ev, ev' with
  | EvUtime p b _, EvUtime p' b' _ =>
      String.eqb p p' && (actime b =? actime b') && (modtime b =? modtime b')
  | EvUtimes p (a, m) _, EvUtimes p' (a', m') _ =>
      String.eqb p p'
      && (timeval.tv_sec a =? timeval.tv_sec a')
      && (timeval.tv_usec a =? timeval.tv_usec a')
      && (timeval.tv_sec m =? timeval.tv_sec m')
      && (timeval.tv_usec m =? timeval.tv_usec m')
  | _, _ => false
  end.

(** [reissued next tr]: in the log [tr] (most recent first), followed in
    time by the event [next] if there is one, every interrupted system call
    is followed at once by the same call. *)
Fixpoint reissued (next : option Event) (tr : list Event) : bool :=
  match tr with
  | [] => true
  | ev :: older =>
      match event_outcome ev with
      | Some o =>
          if is_interrupted o
          then match next with
               | Some ev' => same_call ev ev'
               | None => false
               end
          else true
      | None => true
      end && reissued (Some ev) older
  end.

(** ** What the kernel answers when asked again *)

(** [definitive_after n sys k]: from the state [k], the kernel interrupts the
    call [sys] [n] times in a row and answers the next one; the answer and
    the state it leaves. *)
Fixpoint definitive_after {H : Host} (n : nat)
  (sys : kernel -> Outcome * kernel) (k : kernel) : option (Outcome * kernel) :=
  let (o, k') := sys k in
  match n with
  | O => if is_interrupted o then None else Some (o, k')
  | S n' => if is_interrupted o then definitive_after n' sys k' else None
  end.

(** The world the retry loop leaves. *)
Definition settled {H : Host} (ev : Outcome -> Event) (n : nat) (o : Outcome)
  (k : kernel) (w : World) : World :=
  mkWorld (libc_errno o (match n with O => errno w | S _ => EINTR end))
          (mono_io_portability_helpers w) k
          (ev o :: repeat (ev (SysErr EINTR)) n ++ trace w).

(** ** The course of a call that sets file times *)

Section Course.

Context {H : Host}.
Variable cfg : Config.

(** The value of [IS_PORTABILITY_SET] in a world. *)
Definition portability_set (w : World) : bool :=
  negb (DISABLE_PORTABILITY cfg) && (0 <? mono_io_portability_helpers w).

(** The retry loop of an entry point on a path. *)
Definition retry_set_times (fuel : nat) (t : FileTimes) (path : string)
  : M Z :=
  retry_interrupted fuel
    (syscall (host_set_times cfg t path) (set_times_event cfg t path)).

(** The world after the lookup of [path] from [w1]. *)
Definition looked_up (path : string) (w1 : World) : option string * World :=
  let '(found, clobber, k2) := host_find_file path true (kern w1) in
  (found,
   mkWorld (match clobber with Some e => e | None => errno w1 end)
           (mono_io_portability_helpers w1) k2
           (EvFindFile path true found :: trace w1)).

(** The three courses a returning call can have taken. *)
Inductive Course (path : string) (t : FileTimes) (w : World) (r : Z)
  (w' : World) : Prop :=
| Direct n o k1 :
    definitive_after n (host_set_times cfg t path) (kern w) = Some (o, k1) ->
    r = libc_result o ->
    w' = settled (set_times_event cfg t path) n o k1 w ->
    Course path t w r w'
| Missing n k1 w2 :
    definitive_after n (host_set_times cfg t path) (kern w)
    = Some (SysErr ENOENT, k1) ->
    looked_up path (settled (set_times_event cfg t path) n (SysErr ENOENT) k1 w)
    = (None, w2) ->
    r = -1 ->
    w' = with_errno ENOENT w2 ->
    Course path t w r w'
| Located n k1 located w2 n2 o2 k3 :
    definitive_after n (host_set_times cfg t path) (kern w)
    = Some (SysErr ENOENT, k1) ->
    looked_up path (settled (set_times_event cfg t path) n (SysErr ENOENT) k1 w)
    = (Some located, w2) ->
    definitive_after n2 (host_set_times cfg t located) (kern w2)
    = Some (o2, k3) ->
    r = libc_result o2 ->
    w' = with_event (EvFree located)
           (settled (set_times_event cfg t located) n2 o2 k3 w2) ->
    Course path t w r w'.

End Course.

(** ** The other portability tests (MONO_IO_PORTABILITY_H) *)

(** [IS_PORTABILITY_NONE], [IS_PORTABILITY_UNKNOWN], [IS_PORTABILITY_DRIVE]
    and [IS_PORTABILITY_CASE]: the bits of [mono_io_portability_helpers]
    under a mask, an [int] that C reads as true when it is not 0; [FALSE]
    where the build has [DISABLE_PORTABILITY]. *)
Definition portability_test {H : Host} (mask : Z) (cfg : Config) : M Z :=
  if DISABLE_PORTABILITY cfg then ret 0
  else fun w => Returned (Z.land (mono_io_portability_helpers w) mask, w).

Definition IS_PORTABILITY_NONE {H : Host} : Config -> M Z :=
  portability_test PORTABILITY_NONE.
Definition IS_PORTABILITY_UNKNOWN {H : Host} : Config -> M Z :=
  portability_test PORTABILITY_UNKNOWN.
Definition IS_PORTABILITY_DRIVE {H : Host} : Config -> M Z :=
  portability_test PORTABILITY_DRIVE.
Definition IS_PORTABILITY_CASE {H : Host} : Config -> M Z :=
  portability_test PORTABILITY_CASE.

(** ** More readers of the log *)

(** The names the lookups of a log located, and the buffers it released. *)
Definition found_name (ev : Event) : list string :=
  match ev with EvFindFile _ _ (Some name) => [name] | _ => [] end.

Definition freed_name (ev : Event) : list string :=
  match ev with EvFree mem => [mem] | _ => [] end.

Definition found_names (tr : list Event) : list string := flat_map found_name tr.
Definition freed_names (tr : list Event) : list string := flat_map freed_name tr.

(** The entries of one retry loop on [p]: [n] interrupted calls and the
    call the kernel answered with [o], most recent first. *)
Definition loop_events (cfg : Config) (t : FileTimes) (p : string) (n : nat)
  (o : Outcome) : list Event :=
  set_times_event cfg t p o :: repeat (set_times_event cfg t p (SysErr EINTR)) n.

(** The entries a returning call adds to the log, by its course. *)
Inductive LogShape (cfg : Config) (t : FileTimes) (path : string)
  : list Event -> Prop :=
| ShapeDirect n o :
    is_interrupted o = false ->
    LogShape cfg t path (loop_events cfg t path n o)
| ShapeMissing n :
    LogShape cfg t path
      (EvFindFile path true None :: loop_events cfg t path n (SysErr ENOENT))
| ShapeLocated n located n2 o2 :
    is_interrupted o2 = false ->
    LogShape cfg t path
      (EvFree located
       :: loop_events cfg t located n2 o2
       ++ EvFindFile path true (Some located)
       :: loop_events cfg t path n (SysErr ENOENT)).

(** [interrupted_through n sys k]: from the state [k], the kernel interrupts
    the call [sys] [n] times in a row. *)
Fixpoint interrupted_through {H : Host} (n : nat)
  (sys : kernel -> Outcome * kernel) (k : kernel) : bool :=
  match n with
  | O => true
  | S n' => let (o, k') := sys k in
            is_interrupted o && interrupted_through n' sys k'
  end.

(** ** Timestamps: the primitive a build selects and what it reads *)

Inductive Primitive : Type :=
| ClockMonotonic      (* clock_gettime (CLOCK_MONOTONIC) *)
| MachAbsoluteTime    (* mach_absolute_time *)
| TimeOfDay.          (* gettimeofday *)

(** The [#if] / [#elif] / [#else] chain of both timestamp functions. *)
Definition selected (cfg : Config) : Primitive :=
  if HAVE_CLOCK_MONOTONIC cfg then ClockMonotonic
  else if HAVE_MACH_ABSOLUTE_TIME cfg then MachAbsoluteTime
  else TimeOfDay.

(** Ticks in one unit of the first component of a reading. *)
Definition ticks_per_unit (p : Primitive) : Z :=
  match p with
  | ClockMonotonic => SecondsToNanoSeconds
  | MachAbsoluteTime => 1
  | TimeOfDay => SecondsToMicroSeconds
  end.

(** What the selected primitive reads in a kernel state: seconds and the
    fraction of a second ([tv_sec] and [tv_nsec] or [tv_usec]); the tick
    counter reads whole ticks. *)
Definition reading {H : Host} (cfg : Config) (k : kernel) : Z * Z :=
  match selected cfg with
  | ClockMonotonic =>
      let '(_, ts, _) := host_clock_gettime k in
      (timespec.tv_sec ts, timespec.tv_nsec ts)
  | MachAbsoluteTime => (fst (host_mach_absolute_time k), 0)
  | TimeOfDay =>
      let '(_, tv, _) := host_gettimeofday k in
      (timeval.tv_sec tv, timeval.tv_usec tv)
  end.

(** Readings in time order. *)
Definition reading_le (a b : Z * Z) : Prop :=
  fst a < fst b \/ (fst a = fst b /\ snd a <= snd b).

(** 0 <= tv_nsec < 10^9, 0 <= tv_usec < 10^6. *)
Definition fraction_in_range (cfg : Config) (a : Z * Z) : Prop :=
  0 <= snd a < ticks_per_unit (selected cfg).

(** The reading is not negative and its tick count fits 64 bits; nothing
    is asked of the tick counter, which is read as it is. *)
Definition ticks_fit (cfg : Config) (a : Z * Z) : Prop :=
  match selected cfg with
  | MachAbsoluteTime => True
  | p => 0 <= fst a /\ fst a * ticks_per_unit p + snd a < 2 ^ 64
  end.

(** Follows the spec's words: the "fixed tick rate" of the hardware tick
    counter, in ticks per second.  One tick lasts numer / denom
    nanoseconds, so a second has 10^9 * denom / numer ticks, a rational
    number. *)
Definition spec_tick_rate (numer denom : Z) : Q :=
  (SecondsToNanoSeconds * denom) # (Z.to_pos numer).

(** Whether the probe of the selected primitive fails in a kernel state. *)
Definition probe_fails {H : Host} (cfg : Config) (k : kernel) : Prop :=
  match selected cfg with
  | ClockMonotonic => fst (fst (host_clock_gettime k)) <> SysOk
  | MachAbsoluteTime => fst (fst (host_mach_timebase_info k)) <> KERN_SUCCESS
  | TimeOfDay => False
  end.

(** The tick count of a reading, in the integers. *)
Definition tick_count (p : Primitive) (a : Z * Z) : Z :=
  fst a * ticks_per_unit p + snd a.

(** ** A small host to run the code on *)

Module Toy.

(** A kernel with a set of file names, some of them not writable, a
    number of signals waiting to interrupt system calls, one name the
    portability helper can locate and the error code it leaves behind, a
    tick counter and a timebase. *)
Record state : Type := mk {
  signals : nat;
  files : list string;
  readonly : list string;
  alias : option string;
  lookup_errno : option Z;
  clock_works : bool;
  ticks : Z;
  timebase_status : Z;
  timebase : mach_timebase_info_data_t
}.

Definition EACCES : Z := 13.
Definition EINVAL : Z := 22.

Definition tick (s : state) : state :=
  mk (signals s) (files s) (readonly s) (alias s) (lookup_errno s)
     (clock_works s) (ticks s + 1) (timebase_status s) (timebase s).

Definition deliver (n : nat) (s : state) : state :=
  mk n (files s) (readonly s) (alias s) (lookup_errno s)
     (clock_works s) (ticks s) (timebase_status s) (timebase s).

Definition set_times (path : string) (s : state) : Outcome * state :=
  match signals s with
  | S n => (SysErr EINTR, deliver n s)
  | O =>
      if existsb (String.eqb path) (readonly s) then (SysErr EACCES, s)
      else if existsb (String.eqb path) (files s) then (SysOk, s)
      else (SysErr ENOENT, s)
  end.

#[global] Instance host : Host := {|
  kernel := state;
  host_utime := fun path _ => set_times path;
  host_utimes := fun path _ => set_times path;
  host_find_file := fun _ _ s => (alias s, lookup_errno s, s);
  host_clock_gettime := fun s =>
    if clock_works s
    then (SysOk,
          timespec.mk (ticks s / SecondsToNanoSeconds)
                      (ticks s mod SecondsToNanoSeconds), tick s)
    else (SysErr EINVAL, timespec.mk 0 0, s);
  host_mach_timebase_info := fun s => (timebase_status s, timebase s, s);
  host_mach_absolute_time := fun s => (ticks s, tick s);
  host_gettimeofday := fun s =>
    (SysOk,
     timeval.mk (ticks s / SecondsToMicroSeconds)
                (ticks s mod SecondsToMicroSeconds), tick s)
|}.

(** Linux-like and macOS-like builds and one with neither clock, all with
    [assert] on; [release] is the Linux-like build with [NDEBUG]. *)
Definition linux : Config := mkConfig true false false false false 64 64 64.
Definition macos : Config := mkConfig false true true false false 64 64 32.
Definition plain : Config := mkConfig false false false false false 64 64 64.
Definition release : Config := mkConfig true false false false true 64 64 64.
Definition macos_release : Config :=
  mkConfig false true true false true 64 64 32.

(** A kernel seen through its files, and one seen through its clocks. *)
Definition disk (sig : nat) (fs ro : list string) (al : option string)
  : state :=
  mk sig fs ro al (Some EINVAL) true 0 KERN_SUCCESS (mkTimebase 1 1).

Definition clock (works : bool) (t : Z) (status num den : Z) : state :=
  mk 0 [] [] None None works t status (mkTimebase num den).

Definition world (portability : Z) (s : state) : World :=
  mkWorld 0 portability s [].

Definition now : UTimBuf := mkUTimBuf 1700000000 1700000000.
Definition now_us : TimeValPair := mkTimeValPair 1700000000 5 1700000000 7.

End Toy.

(** ** Test runs *)

Example run_existing_file :
  SystemNative_UTime Toy.linux 3 "a.txt" Toy.now
    (Toy.world 0 (Toy.disk 2 ["a.txt"%string] [] None))
  = Returned (0, mkWorld EINTR 0 (Toy.disk 0 ["a.txt"%string] [] None)
                   [EvUtime "a.txt" (mkutimbuf 1700000000 1700000000) SysOk;
                    EvUtime "a.txt" (mkutimbuf 1700000000 1700000000)
                            (SysErr EINTR);
                    EvUtime "a.txt" (mkutimbuf 1700000000 1700000000)
                            (SysErr EINTR)]).
Proof. reflexivity. Qed.

Example run_out_of_fuel :
  SystemNative_UTime Toy.linux 2 "a.txt" Toy.now
    (Toy.world 0 (Toy.disk 2 ["a.txt"%string] [] None))
  = Stopped FuelExhausted.
Proof. reflexivity. Qed.

Example run_located :
  exists w',
    SystemNative_UTimes Toy.linux 1 "A.TXT" Toy.now_us
      (Toy.world PORTABILITY_CASE
         (Toy.disk 0 ["a.txt"%string] [] (Some "a.txt"%string)))
    = Returned (0, w')
    /\ errno w' = Toy.EINVAL
    /\ lookups (trace w') = [EvFindFile "A.TXT" true (Some "a.txt"%string)].
Proof. eexists. split; [reflexivity | split; reflexivity]. Qed.

Example run_resolution_linux :
  SystemNative_GetTimestampResolution Toy.linux
    (Toy.world 0 (Toy.clock true 41 KERN_SUCCESS 1 1))
  = Returned ((1, 1000000000),
              Toy.world 0 (Toy.clock true 42 KERN_SUCCESS 1 1)).
Proof. reflexivity. Qed.

Example run_timestamp_linux :
  SystemNative_GetTimestamp Toy.linux
    (Toy.world 0 (Toy.clock true 5000000123 KERN_SUCCESS 1 1))
  = Returned ((1, 5000000123),
              Toy.world 0 (Toy.clock true 5000000124 KERN_SUCCESS 1 1)).
Proof. reflexivity. Qed.

Example run_timestamp_assert :
  SystemNative_GetTimestamp Toy.linux
    (Toy.world 0 (Toy.clock false 7 KERN_SUCCESS 1 1))
  = Stopped AssertFailed.
Proof. reflexivity. Qed.

Example run_timestamp_plain :
  SystemNative_GetTimestamp Toy.plain
    (Toy.world 0 (Toy.clock true 3000007 KERN_SUCCESS 1 1))
  = Returned ((1, 3000007),
              Toy.world 0 (Toy.clock true 3000008 KERN_SUCCESS 1 1)).
Proof. reflexivity. Qed.

Example run_resolution_intel_mac :
  SystemNative_GetTimestampResolution Toy.macos
    (Toy.world 0 (Toy.clock true 0 KERN_SUCCESS 1 1))
  = Returned ((1, 1000000000),
              Toy.world 0 (Toy.clock true 0 KERN_SUCCESS 1 1)).
Proof. reflexivity. Qed.

Example run_resolution_zero_numer :
  SystemNative_GetTimestampResolution Toy.macos
    (Toy.world 0 (Toy.clock true 0 KERN_SUCCESS 0 1))
  = Stopped DivisionByZero.
Proof. reflexivity. Qed.

Example run_timebase :
  SystemNative_GetTimebaseInfo Toy.macos
    (Toy.world 0 (Toy.clock true 0 KERN_SUCCESS 125 3))
  = Returned ((1, 125, 3),
              Toy.world 0 (Toy.clock true 0 KERN_SUCCESS 125 3)).
Proof. reflexivity. Qed.

(** ** The retry loop *)

Section RetryLoop.

Context {H : Host}.
Variable sys : kernel -> Outcome * kernel.
Variable ev : Outcome -> Event.

Lemma is_interrupted_true (o : Outcome) :
  is_interrupted o = true -> o = SysErr EINTR.
Proof.
  destruct o as [|e]; simpl; [discriminate|].
  intros E. apply Z.eqb_eq in E. now subst.
Qed.

Lemma repeat_snoc {A} (x : A) (n : nat) (l : list A) :
  repeat x n ++ x :: l = x :: repeat x n ++ l.
Proof. induction n as [|n IH]; simpl; [reflexivity | now rewrite IH]. Qed.

(** Enough fuel: the loop issues the call until the kernel answers. *)
Lemma retry_settles (n : nat) : forall (fuel : nat) (w : World) o k',
  definitive_after n sys (kern w) = Some (o, k') ->
  (n < fuel)%nat ->
  retry_interrupted fuel (syscall sys ev) w
  = Returned (libc_result o, settled ev n o k' w).
Proof.
  induction n as [|n IH]; intros [|fuel] w o k' D Hf; try lia;
    simpl in D; simpl retry_interrupted; unfold bind at 1, syscall at 1;
    destruct (sys (kern w)) as [o1 k1] eqn:E1.
  - destruct (is_interrupted o1) eqn:I; [discriminate|].
    injection D as <- <-.
    unfold bind, CheckInterrupted, get_errno, ret; simpl.
    destruct o1 as [|e]; simpl in *; [reflexivity|]. now rewrite I.
  - destruct (is_interrupted o1) eqn:I; [|discriminate].
    apply is_interrupted_true in I. subst o1.
    unfold bind at 1, CheckInterrupted, get_errno, ret; simpl.
    rewrite (IH fuel _ o k'); [|exact D|lia].
    unfold settled; simpl. f_equal. f_equal.
    destruct n; simpl; now rewrite ?repeat_snoc.
Qed.

(** A result of the loop is a definitive answer of the kernel. *)
Lemma retry_returned (fuel : nat) : forall (w : World) r w1,
  retry_interrupted fuel (syscall sys ev) w = Returned (r, w1) ->
  exists n o,
    (n < fuel)%nat
    /\ definitive_after n sys (kern w) = Some (o, kern w1)
    /\ r = libc_result o
    /\ w1 = settled ev n o (kern w1) w.
Proof.
  induction fuel as [|fuel IH]; intros w r w1 R; [discriminate|].
  simpl in R. unfold bind at 1, syscall at 1 in R.
  destruct (sys (kern w)) as [o1 k1] eqn:E1.
  destruct (is_interrupted o1) eqn:I.
  - apply is_interrupted_true in I. subst o1.
    unfold bind at 1, CheckInterrupted, get_errno, ret in R; simpl in R.
    apply IH in R. destruct R as (n & o & Hn & D & -> & W).
    exists (S n), o. simpl in D. repeat split; [lia | | ].
    + simpl. now rewrite E1.
    + rewrite W at 1. unfold settled; simpl. f_equal.
      * now destruct n.
      * now rewrite repeat_snoc.
  - exists O, o1.
    unfold bind, CheckInterrupted, get_errno, ret in R; simpl in R.
    assert (C : (libc_result o1 <? 0) && (libc_errno o1 (errno w) =? EINTR) = false).
    { destruct o1 as [|e]; simpl in *; [reflexivity | exact I]. }
    rewrite C in R. injection R as <- <-. simpl.
    rewrite E1, I. repeat split. lia.
Qed.

(** The loop stops for no reason but lack of fuel. *)
Lemma retry_stopped (fuel : nat) : forall (w : World) why,
  retry_interrupted fuel (syscall sys ev) w = Stopped why ->
  why = FuelExhausted.
Proof.
  induction fuel as [|fuel IH]; intros w why R.
  - simpl in R. unfold stop in R. congruence.
  - simpl in R. unfold bind at 1, syscall at 1 in R.
    destruct (sys (kern w)) as [o1 k1].
    unfold bind at 1, CheckInterrupted, get_errno, ret in R; simpl in R.
    destruct ((libc_result o1 <? 0) && (libc_errno o1 (errno w) =? EINTR)).
    + now apply IH in R.
    + discriminate.
Qed.

End RetryLoop.

(** ** The course of SystemNative_UTime and SystemNative_UTimes *)

Section SetFileTimesFacts.

Context {H : Host}.
Variable cfg : Config.

Lemma IS_PORTABILITY_SET_eval (w : World) :
  IS_PORTABILITY_SET cfg w = Returned (portability_set cfg w, w).
Proof.
  unfold IS_PORTABILITY_SET, portability_set.
  now destruct (DISABLE_PORTABILITY cfg).
Qed.

(** The body of both entry points with the monad unfolded. *)
Lemma SetFileTimes_eq (fuel : nat) (path : string) (t : FileTimes) (w : World) :
  SetFileTimes cfg fuel path t w =
  match retry_set_times cfg fuel t path w with
  | Stopped why => Stopped why
  | Returned (result, w1) =>
      if (result =? -1) && (errno w1 =? ENOENT) && portability_set cfg w1 then
        match looked_up path w1 with
        | (None, w2) => Returned (-1, with_errno (errno w1) w2)
        | (Some located, w2) =>
            match retry_set_times cfg fuel t located w2 with
            | Stopped why => Stopped why
            | Returned (r2, w3) => Returned (r2, with_event (EvFree located) w3)
            end
        end
      else Returned (result, w1)
  end.
Proof.
  destruct t as [times|times]; simpl;
    [unfold SystemNative_UTime | unfold SystemNative_UTimes];
    unfold retry_set_times, utime, utimes; simpl;
    unfold bind at 1;
    (match goal with
     | |- context [retry_interrupted fuel ?c w] =>
         destruct (retry_interrupted fuel c w) as [[result w1]|why]
     end; [|reflexivity]);
    unfold bind at 1, get_errno at 1; unfold bind at 1;
    rewrite IS_PORTABILITY_SET_eval;
    (destruct ((result =? -1) && (errno w1 =? ENOENT) && portability_set cfg w1)
       eqn:B; [|reflexivity]);
    unfold bind at 1, get_errno at 1; unfold bind at 1;
    unfold mono_portability_find_file, looked_up;
    (assert (D : DISABLE_PORTABILITY cfg = false)
       by (unfold portability_set in B;
           destruct (DISABLE_PORTABILITY cfg); [|reflexivity];
           rewrite !andb_false_r in B; simpl in B; discriminate));
    rewrite D;
    destruct (host_find_file path true (kern w1)) as [[[located|] clobber] k2];
    try reflexivity;
    unfold bind at 1;
    match goal with
    | |- context [retry_interrupted fuel ?c ?w2] =>
        destruct (retry_interrupted fuel c w2) as [[r2 w3]|why]
    end; reflexivity.
Qed.

End SetFileTimesFacts.

Section SetFileTimesCases.

Context {H : Host}.
Variable cfg : Config.

Lemma definitive_not_interrupted (sys : kernel -> Outcome * kernel) (n : nat) :
  forall k o k',
    definitive_after n sys k = Some (o, k') -> is_interrupted o = false.
Proof.
  induction n as [|n IH]; intros k o k' D; simpl in D;
    destruct (sys k) as [o1 k1]; destruct (is_interrupted o1) eqn:I;
    try discriminate.
  - now injection D as <- <-.
  - now apply IH in D.
Qed.

Lemma settled_errno_failed ev n e k (w : World) :
  errno (settled ev n (SysErr e) k w) = e.
Proof. reflexivity. Qed.

(** No fallback: the result and the error code are those of the call. *)
Lemma set_times_direct (fuel : nat) (path : string) (t : FileTimes)
  (w : World) n o k1 :
  definitive_after n (host_set_times cfg t path) (kern w) = Some (o, k1) ->
  (n < fuel)%nat ->
  o <> SysErr ENOENT \/ portability_set cfg w = false ->
  SetFileTimes cfg fuel path t w
  = Returned (libc_result o, settled (set_times_event cfg t path) n o k1 w).
Proof.
  intros D Hf Hno. rewrite SetFileTimes_eq. unfold retry_set_times.
  rewrite (retry_settles _ (set_times_event cfg t path) n fuel w o k1 D Hf).
  replace (portability_set cfg (settled (set_times_event cfg t path) n o k1 w))
    with (portability_set cfg w) by reflexivity.
  destruct o as [|e]; [reflexivity|].
  rewrite settled_errno_failed.
  destruct Hno as [Hne | ->]; [|now rewrite andb_false_r].
  destruct (Z.eqb_spec e ENOENT) as [->|]; [congruence|].
  now rewrite andb_false_r.
Qed.

(** Fallback, nothing located: the not-found error is put back. *)
Lemma set_times_missing (fuel : nat) (path : string) (t : FileTimes)
  (w : World) n k1 clobber k2 :
  definitive_after n (host_set_times cfg t path) (kern w)
  = Some (SysErr ENOENT, k1) ->
  (n < fuel)%nat ->
  portability_set cfg w = true ->
  host_find_file path true k1 = (None, clobber, k2) ->
  SetFileTimes cfg fuel path t w
  = Returned (-1,
      mkWorld ENOENT (mono_io_portability_helpers w) k2
        (EvFindFile path true None
         :: trace (settled (set_times_event cfg t path) n (SysErr ENOENT) k1 w))).
Proof.
  intros D Hf Hset Hfind. rewrite SetFileTimes_eq. unfold retry_set_times.
  rewrite (retry_settles _ (set_times_event cfg t path) n fuel w _ k1 D Hf).
  replace (portability_set cfg (settled (set_times_event cfg t path) n (SysErr ENOENT) k1 w))
    with (portability_set cfg w) by reflexivity.
  rewrite Hset, settled_errno_failed. simpl.
  unfold looked_up. simpl. now rewrite Hfind.
Qed.

(** Fallback, a name located: the result is that of the second attempt. *)
Lemma set_times_located (fuel : nat) (path : string) (t : FileTimes)
  (w : World) n k1 located clobber k2 n2 o2 k3 :
  definitive_after n (host_set_times cfg t path) (kern w)
  = Some (SysErr ENOENT, k1) ->
  (n < fuel)%nat ->
  portability_set cfg w = true ->
  host_find_file path true k1 = (Some located, clobber, k2) ->
  definitive_after n2 (host_set_times cfg t located) k2 = Some (o2, k3) ->
  (n2 < fuel)%nat ->
  SetFileTimes cfg fuel path t w
  = Returned (libc_result o2,
      with_event (EvFree located)
        (settled (set_times_event cfg t located) n2 o2 k3
           (snd (looked_up path
                   (settled (set_times_event cfg t path) n (SysErr ENOENT) k1 w))))).
Proof.
  intros D Hf Hset Hfind D2 Hf2. rewrite SetFileTimes_eq. unfold retry_set_times.
  rewrite (retry_settles _ (set_times_event cfg t path) n fuel w _ k1 D Hf).
  replace (portability_set cfg (settled (set_times_event cfg t path) n (SysErr ENOENT) k1 w))
    with (portability_set cfg w) by reflexivity.
  rewrite Hset, settled_errno_failed. simpl.
  unfold looked_up. simpl. rewrite Hfind. simpl.
  erewrite retry_settles; [reflexivity | exact D2 | exact Hf2].
Qed.

Lemma SetFileTimes_course (fuel : nat) (path : string) (t : FileTimes)
  (w : World) r w' :
  SetFileTimes cfg fuel path t w = Returned (r, w') -> Course cfg path t w r w'.
Proof.
  rewrite SetFileTimes_eq.
  destruct (retry_set_times cfg fuel t path w) as [[r1 w1]|why] eqn:R1;
    [|discriminate].
  apply retry_returned in R1. destruct R1 as (n & o & _ & D & -> & W1).
  destruct ((libc_result o =? -1) && (errno w1 =? ENOENT) && portability_set cfg w1)
    eqn:B.
  - apply andb_prop in B. destruct B as [B _].
    apply andb_prop in B. destruct B as [Br Be].
    apply Z.eqb_eq in Be.
    assert (o = SysErr ENOENT) as ->.
    { destruct o as [|e]; [discriminate|].
      rewrite W1, settled_errno_failed in Be. now subst. }
    destruct (looked_up path w1) as [[located|] w2] eqn:L.
    + destruct (retry_set_times cfg fuel t located w2) as [[r2 w3]|why] eqn:R2;
        [|discriminate].
      apply retry_returned in R2. destruct R2 as (n2 & o2 & _ & D2 & -> & W3).
      intros E. injection E as <- <-.
      apply Located with (n := n) (k1 := kern w1) (located := located)
                         (w2 := w2) (n2 := n2) (o2 := o2) (k3 := kern w3);
        [exact D | now rewrite <- W1 | exact D2 | reflexivity | now rewrite <- W3].
    + intros E. injection E as <- <-.
      rewrite Be.
      apply Missing with (n := n) (k1 := kern w1) (w2 := w2);
        [exact D | now rewrite <- W1 | reflexivity | reflexivity].
  - intros E. injection E as <- <-.
    apply Direct with (n := n) (o := o) (k1 := kern w1);
      [exact D | reflexivity | exact W1].
Qed.

End SetFileTimesCases.

(** ** The log of a call *)

Section LogFacts.

Context {H : Host}.
Variable cfg : Config.

Lemma event_outcome_set_times t p o :
  event_outcome (set_times_event cfg t p o) = Some o.
Proof. now destruct t. Qed.

Lemma is_lookup_set_times t p o : is_lookup (set_times_event cfg t p o) = false.
Proof. now destruct t. Qed.

Lemma same_call_set_times t p o o' :
  same_call (set_times_event cfg t p o) (set_times_event cfg t p o') = true.
Proof.
  destruct t as [times|times]; simpl.
  - now rewrite String.eqb_refl, !Z.eqb_refl.
  - now rewrite String.eqb_refl, !Z.eqb_refl.
Qed.

Lemma last_syscall_settled t p n o k (w : World) :
  last_syscall (trace (settled (set_times_event cfg t p) n o k w)) = Some o.
Proof. simpl. now rewrite event_outcome_set_times. Qed.

Lemma lookups_settled t p n o k (w : World) :
  lookups (trace (settled (set_times_event cfg t p) n o k w))
  = lookups (trace w).
Proof.
  unfold lookups. simpl. rewrite is_lookup_set_times.
  induction n as [|n IH]; simpl; [reflexivity|].
  now rewrite is_lookup_set_times.
Qed.

(** The entries of one retry loop: each interrupted call is followed by
    the same call. *)
Lemma reissued_interrupted t p next n older :
  reissued (Some (set_times_event cfg t p next))
           (repeat (set_times_event cfg t p (SysErr EINTR)) n ++ older)
  = reissued (Some (match n with
                    | O => set_times_event cfg t p next
                    | S _ => set_times_event cfg t p (SysErr EINTR)
                    end)) older.
Proof.
  revert next. induction n as [|n IH]; intros next; simpl; [reflexivity|].
  rewrite event_outcome_set_times. simpl.
  rewrite same_call_set_times, IH. simpl. now destruct n.
Qed.

Lemma reissued_skip next ev older :
  event_outcome ev = None ->
  reissued next (ev :: older) = reissued (Some ev) older.
Proof. intros E. simpl. now rewrite E. Qed.

Lemma reissued_loop t p next n o older :
  is_interrupted o = false ->
  reissued next
    (set_times_event cfg t p o
     :: repeat (set_times_event cfg t p (SysErr EINTR)) n ++ older)
  = reissued (Some (match n with
                    | O => set_times_event cfg t p o
                    | S _ => set_times_event cfg t p (SysErr EINTR)
                    end)) older.
Proof.
  intros I. simpl. rewrite event_outcome_set_times, I. simpl.
  apply reissued_interrupted.
Qed.

End LogFacts.

(** ** Setting file times: the claims *)

Section SetFileTimesClaims.

Context {H : Host}.
Variable cfg : Config.

(** The result of a returning call is the result of the last system call
    it issued. *)
Lemma SetFileTimes_result (fuel : nat) (path : string) (t : FileTimes)
  (w : World) r w' :
  SetFileTimes cfg fuel path t w = Returned (r, w') ->
  exists o, last_syscall (trace w') = Some o /\ r = libc_result o.
Proof.
  intros R. apply SetFileTimes_course in R.
  destruct R as [n o k1 D -> -> | n k1 w2 D L -> -> | n k1 loc w2 n2 o2 k3 D L D2 -> ->].
  - exists o. now rewrite last_syscall_settled.
  - exists (SysErr ENOENT). split; [|reflexivity].
    unfold looked_up in L.
    destruct (host_find_file path true _) as [[found clobber] k2].
    injection L as -> <-. simpl. now rewrite event_outcome_set_times.
  - exists o2. split; [|reflexivity].
    unfold with_event. cbn [trace last_syscall event_outcome].
    apply last_syscall_settled.
Qed.

(** C1, as amended: a call to SystemNative_UTime or SystemNative_UTimes that
    returns has issued a last system call; when that call succeeded the
    function returns 0 (not 1), and when it failed the function returns
    -1. *)
Theorem C1_success_is_zero_failure_minus_one (fuel : nat) (path : string)
  (t : FileTimes) (w : World) r w' :
  SetFileTimes cfg fuel path t w = Returned (r, w') ->
  (last_syscall (trace w') = Some SysOk /\ r = 0)
  \/ (exists e, last_syscall (trace w') = Some (SysErr e) /\ r = -1).
Proof.
  intros R. apply SetFileTimes_result in R. destruct R as ([|e] & L & ->).
  - now left.
  - right. now exists e.
Qed.

(** C3: when the first system call fails with ENOENT (after any number of
    interruptions), the portability fallback is set and the lookup finds
    nothing, the function returns -1 and errno is ENOENT again, whatever
    the lookup left in it. *)
Theorem C3_not_found_is_restored (fuel : nat) (path : string) (t : FileTimes)
  (w : World) n k1 clobber k2 :
  definitive_after n (host_set_times cfg t path) (kern w)
  = Some (SysErr ENOENT, k1) ->
  (n < fuel)%nat ->
  IS_PORTABILITY_SET cfg w = Returned (true, w) ->
  host_find_file path true k1 = (None, clobber, k2) ->
  exists w',
    SetFileTimes cfg fuel path t w = Returned (-1, w')
    /\ errno w' = ENOENT
    /\ lookups (trace w') = EvFindFile path true None :: lookups (trace w).
Proof.
  intros D Hf Hset Hfind.
  rewrite IS_PORTABILITY_SET_eval in Hset. injection Hset as Hset.
  eexists. split.
  { apply set_times_missing with (k1 := k1) (clobber := clobber) (k2 := k2);
      eassumption. }
  split; [reflexivity|].
  cbn [trace]. unfold lookups at 1. cbn [filter is_lookup]. f_equal.
  apply lookups_settled.
Qed.

(** C5: when the first system call fails with an error other than ENOENT,
    or fails while the portability fallback is not set, no lookup is made
    and the function returns -1 with errno as the system call set it. *)
Theorem C5_other_errors_are_propagated (fuel : nat) (path : string)
  (t : FileTimes) (w : World) n e k1 :
  definitive_after n (host_set_times cfg t path) (kern w)
  = Some (SysErr e, k1) ->
  (n < fuel)%nat ->
  e <> ENOENT \/ IS_PORTABILITY_SET cfg w = Returned (false, w) ->
  exists w',
    SetFileTimes cfg fuel path t w = Returned (-1, w')
    /\ errno w' = e
    /\ kern w' = k1
    /\ lookups (trace w') = lookups (trace w).
Proof.
  intros D Hf Hno.
  exists (settled (set_times_event cfg t path) n (SysErr e) k1 w).
  split; [|split; [reflexivity | split; [reflexivity | apply lookups_settled]]].
  apply (set_times_direct cfg fuel path t w n (SysErr e) k1 D Hf).
  destruct Hno as [Hne | Hset]; [left; congruence | right].
  rewrite IS_PORTABILITY_SET_eval in Hset. now injection Hset.
Qed.

(** C9: when the first system call fails with ENOENT, the fallback locates a
    name and the system call on that name fails too, the function returns
    the result of that second attempt, -1, with the error code the second
    attempt set; the last call logged before the buffer is released is the
    one on the located name. *)
Theorem C9_second_attempt_is_observed (fuel : nat) (path : string)
  (t : FileTimes) (w : World) n k1 located clobber k2 n2 e2 k3 :
  definitive_after n (host_set_times cfg t path) (kern w)
  = Some (SysErr ENOENT, k1) ->
  (n < fuel)%nat ->
  IS_PORTABILITY_SET cfg w = Returned (true, w) ->
  host_find_file path true k1 = (Some located, clobber, k2) ->
  definitive_after n2 (host_set_times cfg t located) k2 = Some (SysErr e2, k3) ->
  (n2 < fuel)%nat ->
  exists w' older,
    SetFileTimes cfg fuel path t w = Returned (libc_result (SysErr e2), w')
    /\ libc_result (SysErr e2) = -1
    /\ errno w' = e2
    /\ trace w'
       = EvFree located :: set_times_event cfg t located (SysErr e2) :: older.
Proof.
  intros D Hf Hset Hfind D2 Hf2.
  rewrite IS_PORTABILITY_SET_eval in Hset. injection Hset as Hset.
  eexists. eexists. split.
  - apply set_times_located with (clobber := clobber) (k2 := k2); eassumption.
  - split; [reflexivity|]. split; reflexivity.
Qed.

End SetFileTimesClaims.

Section Interruptions.

Context {H : Host}.
Variable cfg : Config.

(** A returning call never hands an interruption to the caller. *)
Lemma SetFileTimes_not_interrupted (fuel : nat) (path : string)
  (t : FileTimes) (w : World) r w' :
  SetFileTimes cfg fuel path t w = Returned (r, w') ->
  CheckInterrupted r w' = Returned (false, w').
Proof.
  intros R. apply SetFileTimes_course in R.
  unfold CheckInterrupted, bind, get_errno, ret.
  destruct R as [n o k1 D -> -> | n k1 w2 D L -> -> | n k1 loc w2 n2 o2 k3 D L D2 -> ->].
  - apply definitive_not_interrupted in D.
    destruct o as [|e]; simpl in *; [reflexivity | now rewrite D].
  - reflexivity.
  - apply definitive_not_interrupted in D2.
    destruct o2 as [|e]; simpl in *; [reflexivity | now rewrite D2].
Qed.

(** In the log of a returning call every interrupted system call is
    followed by the same call. *)
Lemma SetFileTimes_reissues (fuel : nat) (path : string)
  (t : FileTimes) (w : World) r w' :
  SetFileTimes cfg fuel path t w = Returned (r, w') ->
  exists evs, trace w' = evs ++ trace w /\ reissued None evs = true.
Proof.
  intros R. apply SetFileTimes_course in R.
  destruct R as [n o k1 D -> -> | n k1 w2 D L -> -> | n k1 loc w2 n2 o2 k3 D L D2 -> ->].
  - exists (set_times_event cfg t path o
            :: repeat (set_times_event cfg t path (SysErr EINTR)) n).
    split; [reflexivity|].
    rewrite <- (app_nil_r (repeat _ n)).
    rewrite reissued_loop by (eapply definitive_not_interrupted; eassumption).
    reflexivity.
  - unfold looked_up in L.
    destruct (host_find_file path true _) as [[found clobber] k2].
    injection L as -> <-.
    exists (EvFindFile path true None
            :: set_times_event cfg t path (SysErr ENOENT)
            :: repeat (set_times_event cfg t path (SysErr EINTR)) n).
    split; [reflexivity|].
    rewrite <- (app_nil_r (repeat _ n)).
    rewrite reissued_skip by reflexivity.
    rewrite reissued_loop by reflexivity. reflexivity.
  - unfold looked_up in L.
    destruct (host_find_file path true _) as [[found clobber] k2].
    injection L as -> <-.
    exists (EvFree loc
            :: set_times_event cfg t loc o2
            :: repeat (set_times_event cfg t loc (SysErr EINTR)) n2
            ++ EvFindFile path true (Some loc)
            :: set_times_event cfg t path (SysErr ENOENT)
            :: repeat (set_times_event cfg t path (SysErr EINTR)) n).
    split.
    + cbn [trace settled with_event app].
      rewrite <- !app_assoc. reflexivity.
    + rewrite reissued_skip by reflexivity.
      rewrite reissued_loop by (eapply definitive_not_interrupted; eassumption).
      rewrite reissued_skip by reflexivity.
      rewrite <- (app_nil_r (repeat _ n)).
      rewrite reissued_loop by reflexivity. reflexivity.
Qed.

(** The call returns once the kernel has answered: with more fuel than the
    kernel interrupts the first call, and the call on a located name. *)
Lemma SetFileTimes_returns (fuel : nat) (path : string)
  (t : FileTimes) (w : World) n o k1 :
  definitive_after n (host_set_times cfg t path) (kern w) = Some (o, k1) ->
  (n < fuel)%nat ->
  (forall located clobber k2,
      host_find_file path true k1 = (Some located, clobber, k2) ->
      exists n2, (n2 < fuel)%nat
                 /\ definitive_after n2 (host_set_times cfg t located) k2 <> None) ->
  exists r w', SetFileTimes cfg fuel path t w = Returned (r, w').
Proof.
  intros D Hf Hloc.
  destruct (portability_set cfg w) eqn:P.
  2:{ eexists; eexists.
      eapply set_times_direct; [exact D | exact Hf | now right]. }
  destruct o as [|e].
  { eexists; eexists.
    eapply set_times_direct; [exact D | exact Hf | left; discriminate]. }
  destruct (Z.eq_dec e ENOENT) as [->|Hne].
  2:{ eexists; eexists.
      eapply set_times_direct; [exact D | exact Hf | left; congruence]. }
  destruct (host_find_file path true k1) as [[[located|] clobber] k2] eqn:F.
  - destruct (Hloc located clobber k2 eq_refl) as (n2 & Hf2 & D2).
    destruct (definitive_after n2 (host_set_times cfg t located) k2)
      as [[o2 k3]|] eqn:E2; [|congruence].
    eexists; eexists.
    apply set_times_located with (clobber := clobber) (k2 := k2) (k1 := k1);
      eassumption.
  - eexists; eexists.
    apply set_times_missing with (clobber := clobber) (k2 := k2) (k1 := k1);
      eassumption.
Qed.

(** C4: an interruption is never handed to the caller.  A call that returns
    returns a result that is not an interruption, and its log shows every
    interrupted system call, that of the fallback included, followed by the
    same call; and the call does return as soon as the fuel exceeds the
    number of times the kernel interrupts each of the two system calls. *)
Theorem C4_interruptions_are_retried (fuel : nat) (path : string)
  (t : FileTimes) (w : World) :
  (forall r w',
      SetFileTimes cfg fuel path t w = Returned (r, w') ->
      CheckInterrupted r w' = Returned (false, w')
      /\ exists evs, trace w' = evs ++ trace w /\ reissued None evs = true)
  /\ (forall n o k1,
         definitive_after n (host_set_times cfg t path) (kern w) = Some (o, k1) ->
         (n < fuel)%nat ->
         (forall located clobber k2,
             host_find_file path true k1 = (Some located, clobber, k2) ->
             exists n2,
               (n2 < fuel)%nat
               /\ definitive_after n2 (host_set_times cfg t located) k2 <> None) ->
         exists r w', SetFileTimes cfg fuel path t w = Returned (r, w')).
Proof.
  split.
  - intros r w' R. split.
    + eapply SetFileTimes_not_interrupted; eassumption.
    + eapply SetFileTimes_reissues; eassumption.
  - intros n o k1. apply SetFileTimes_returns.
Qed.

End Interruptions.

(** ** Setting file times on the small host *)

(** The claim as first stated, that a successful call returns 1, fails:
    the file exists, the one system call succeeds, and the function
    returns 0. *)
Lemma C1_counterexample_success_returns_zero :
  exists r w',
    SystemNative_UTime Toy.linux 1 "a.txt" Toy.now
      (Toy.world 0 (Toy.disk 0 ["a.txt"%string] [] None))
    = Returned (r, w')
    /\ last_syscall (trace w') = Some SysOk
    /\ r <> 1.
Proof.
  eexists. eexists. split; [reflexivity|]. split; [reflexivity | discriminate].
Qed.

Lemma C1_witness :
  exists w',
    SetFileTimes Toy.linux 3 "a.txt" (Seconds Toy.now)
      (Toy.world 0 (Toy.disk 2 ["a.txt"%string] [] None))
    = Returned (0, w')
    /\ ((last_syscall (trace w') = Some SysOk /\ 0 = 0)
        \/ (exists e, last_syscall (trace w') = Some (SysErr e) /\ 0 = -1)).
Proof.
  eexists. split; [reflexivity|].
  apply (C1_success_is_zero_failure_minus_one Toy.linux 3 "a.txt"
           (Seconds Toy.now)
           (Toy.world 0 (Toy.disk 2 ["a.txt"%string] [] None))).
  reflexivity.
Defined.

Lemma C3_witness :
  exists w',
    SetFileTimes Toy.linux 2 "missing.txt" (Seconds Toy.now)
      (Toy.world PORTABILITY_CASE (Toy.disk 1 [] [] None))
    = Returned (-1, w')
    /\ errno w' = ENOENT
    /\ lookups (trace w')
       = EvFindFile "missing.txt" true None
         :: lookups (trace (Toy.world PORTABILITY_CASE (Toy.disk 1 [] [] None))).
Proof.
  apply (C3_not_found_is_restored Toy.linux 2 "missing.txt" (Seconds Toy.now)
           (Toy.world PORTABILITY_CASE (Toy.disk 1 [] [] None))
           1 (Toy.disk 0 [] [] None) (Some Toy.EINVAL) (Toy.disk 0 [] [] None));
    [reflexivity | lia | reflexivity | reflexivity].
Defined.

Lemma C4_witness :
  (exists w',
      SetFileTimes Toy.linux 3 "a.txt" (Seconds Toy.now)
        (Toy.world 0 (Toy.disk 2 ["a.txt"%string] [] None))
      = Returned (0, w')
      /\ errno w' = EINTR
      /\ CheckInterrupted 0 w' = Returned (false, w')
      /\ exists evs, trace w' = evs ++ [] /\ reissued None evs = true)
  /\ (exists r w',
         SetFileTimes Toy.linux 2 "A.TXT" (SecondsAndMicros Toy.now_us)
           (Toy.world PORTABILITY_CASE
              (Toy.disk 1 ["a.txt"%string] [] (Some "a.txt"%string)))
         = Returned (r, w')).
Proof.
  split.
  - eexists. split; [reflexivity|]. split; [reflexivity|].
    apply (proj1 (C4_interruptions_are_retried Toy.linux 3 "a.txt"
                    (Seconds Toy.now)
                    (Toy.world 0 (Toy.disk 2 ["a.txt"%string] [] None)))).
    reflexivity.
  - apply (proj2 (C4_interruptions_are_retried Toy.linux 2 "A.TXT"
                    (SecondsAndMicros Toy.now_us)
                    (Toy.world PORTABILITY_CASE
                       (Toy.disk 1 ["a.txt"%string] [] (Some "a.txt"%string))))
             1%nat (SysErr ENOENT)
             (Toy.disk 0 ["a.txt"%string] [] (Some "a.txt"%string)));
      [reflexivity | lia |].
    intros located clobber k2 E. simpl in E. injection E as <- <- <-.
    exists 0%nat. split; [lia | discriminate].
Defined.

Lemma C5_witness :
  exists w',
    SetFileTimes Toy.linux 2 "ro.txt" (SecondsAndMicros Toy.now_us)
      (Toy.world PORTABILITY_CASE
         (Toy.disk 1 ["ro.txt"%string] ["ro.txt"%string] None))
    = Returned (-1, w')
    /\ errno w' = Toy.EACCES
    /\ kern w' = Toy.disk 0 ["ro.txt"%string] ["ro.txt"%string] None
    /\ lookups (trace w') = [].
Proof.
  apply (C5_other_errors_are_propagated Toy.linux 2 "ro.txt"
           (SecondsAndMicros Toy.now_us)
           (Toy.world PORTABILITY_CASE
              (Toy.disk 1 ["ro.txt"%string] ["ro.txt"%string] None))
           1 Toy.EACCES (Toy.disk 0 ["ro.txt"%string] ["ro.txt"%string] None));
    [reflexivity | lia | left; unfold Toy.EACCES, ENOENT; lia].
Defined.

Lemma C9_witness :
  exists w' older,
    SetFileTimes Toy.linux 2 "RO.TXT" (Seconds Toy.now)
      (Toy.world PORTABILITY_CASE
         (Toy.disk 1 ["ro.txt"%string] ["ro.txt"%string] (Some "ro.txt"%string)))
    = Returned (libc_result (SysErr Toy.EACCES), w')
    /\ libc_result (SysErr Toy.EACCES) = -1
    /\ errno w' = Toy.EACCES
    /\ trace w'
       = EvFree "ro.txt"
         :: set_times_event Toy.linux (Seconds Toy.now) "ro.txt"
              (SysErr Toy.EACCES)
         :: older.
Proof.
  apply (C9_second_attempt_is_observed Toy.linux 2 "RO.TXT" (Seconds Toy.now)
           (Toy.world PORTABILITY_CASE
              (Toy.disk 1 ["ro.txt"%string] ["ro.txt"%string]
                 (Some "ro.txt"%string)))
           1
           (Toy.disk 0 ["ro.txt"%string] ["ro.txt"%string] (Some "ro.txt"%string))
           "ro.txt" (Some Toy.EINVAL)
           (Toy.disk 0 ["ro.txt"%string] ["ro.txt"%string] (Some "ro.txt"%string))
           0 Toy.EACCES
           (Toy.disk 0 ["ro.txt"%string] ["ro.txt"%string] (Some "ro.txt"%string)));
    [reflexivity | lia | reflexivity | reflexivity | reflexivity | lia].
Defined.

(** ** Timestamps: facts and claims *)

Section TimestampFacts.

Context {H : Host}.

Lemma to_uint64_small (z : Z) : 0 <= z < 2 ^ 64 -> to_uint64 z = z.
Proof. intros R. unfold to_uint64. now apply Z.mod_small. Qed.

(** Where the tick count of a reading fits 64 bits, the timestamp computed
    from it is that tick count. *)
Lemma ticks_exact (sec frac units : Z) :
  0 < units -> 0 <= sec -> 0 <= frac -> sec * units + frac < 2 ^ 64 ->
  add64 (mul64 (to_uint64 sec) units) (to_uint64 frac) = sec * units + frac.
Proof.
  intros Hu Hs Hf Hfit. unfold add64, mul64.
  assert (sec * units < 2 ^ 64) by lia.
  assert (sec <= sec * units) by nia.
  rewrite (to_uint64_small sec) by lia.
  rewrite (to_uint64_small (sec * units)) by nia.
  rewrite (to_uint64_small frac) by lia.
  apply to_uint64_small. nia.
Qed.

(** The timestamp of a successful call, from the reading of the selected
    primitive. *)
Lemma GetTimestamp_reads (cfg : Config) (w : World) t w' :
  SystemNative_GetTimestamp cfg w = Returned ((1, t), w') ->
  t = match selected cfg with
      | MachAbsoluteTime => fst (reading cfg (kern w))
      | p => add64 (mul64 (to_uint64 (fst (reading cfg (kern w))))
                          (ticks_per_unit p))
                   (to_uint64 (snd (reading cfg (kern w))))
      end.
Proof.
  unfold SystemNative_GetTimestamp, reading, selected.
  destruct (HAVE_CLOCK_MONOTONIC cfg); [|destruct (HAVE_MACH_ABSOLUTE_TIME cfg)].
  - unfold bind at 1, clock_gettime.
    destruct (host_clock_gettime (kern w)) as [[o ts] k].
    unfold bind, assert, ret, stop.
    destruct (NDEBUG cfg || (libc_result o =? 0)); [|discriminate].
    intros E. now injection E as <- _.
  - unfold bind, mach_absolute_time, ret.
    destruct (host_mach_absolute_time (kern w)) as [t0 k].
    intros E. now injection E as <- _.
  - unfold bind, gettimeofday, ret.
    destruct (host_gettimeofday (kern w)) as [[o tv] k].
    destruct (libc_result o =? 0); [|discriminate].
    intros E. now injection E as <- _.
Qed.

(** C7, as amended: take two successful calls to SystemNative_GetTimestamp,
    the second reading of the selected primitive not before the first, with
    0 <= tv_nsec < 10^9 (or 0 <= tv_usec < 10^6), and, on the clock_gettime
    and gettimeofday paths, with tv_sec >= 0 and a tick count below 2^64.
    Then the second timestamp is greater than or equal to the first. *)
Theorem C7_timestamps_do_not_decrease (cfg : Config) (wa wb : World)
  ta wa' tb wb' :
  SystemNative_GetTimestamp cfg wa = Returned ((1, ta), wa') ->
  SystemNative_GetTimestamp cfg wb = Returned ((1, tb), wb') ->
  reading_le (reading cfg (kern wa)) (reading cfg (kern wb)) ->
  fraction_in_range cfg (reading cfg (kern wa)) ->
  fraction_in_range cfg (reading cfg (kern wb)) ->
  ticks_fit cfg (reading cfg (kern wa)) ->
  ticks_fit cfg (reading cfg (kern wb)) ->
  ta <= tb.
Proof.
  intros Ra Rb Hle Fa Fb Ta Tb.
  apply GetTimestamp_reads in Ra. apply GetTimestamp_reads in Rb.
  unfold reading_le, fraction_in_range, ticks_fit in *.
  destruct (reading cfg (kern wa)) as [sa fa].
  destruct (reading cfg (kern wb)) as [sb fb].
  simpl in *.
  destruct (selected cfg); simpl in *.
  - rewrite ticks_exact in Ra, Rb by (unfold SecondsToNanoSeconds in *; lia).
    unfold SecondsToNanoSeconds in *. subst. nia.
  - unfold reading in *. lia.
  - rewrite ticks_exact in Ra, Rb by (unfold SecondsToMicroSeconds in *; lia).
    unfold SecondsToMicroSeconds in *. subst. nia.
Qed.

(** The resolution of a successful call, from the build and the timebase
    the host reports. *)
Lemma GetTimestampResolution_reads (cfg : Config) (w : World) r w' :
  SystemNative_GetTimestampResolution cfg w = Returned ((1, r), w') ->
  r = match selected cfg with
      | ClockMonotonic => SecondsToNanoSeconds
      | MachAbsoluteTime =>
          let mtid := snd (fst (host_mach_timebase_info (kern w))) in
          mul64 SecondsToNanoSeconds
                (to_uint64 (denom mtid) / to_uint64 (numer mtid))
      | TimeOfDay => SecondsToMicroSeconds
      end.
Proof.
  unfold SystemNative_GetTimestampResolution, selected.
  destruct (HAVE_CLOCK_MONOTONIC cfg); [|destruct (HAVE_MACH_ABSOLUTE_TIME cfg)].
  - unfold bind, clock_gettime, ret.
    destruct (host_clock_gettime (kern w)) as [[o ts] k].
    destruct (libc_result o =? 0); intros E; now injection E.
  - unfold bind at 1, mach_timebase_info.
    destruct (host_mach_timebase_info (kern w)) as [[kr mtid] k].
    destruct (kr =? KERN_SUCCESS); [|intros E; now injection E].
    unfold bind, udiv64, ret, stop. simpl.
    destruct (to_uint64 (numer mtid) =? 0); [discriminate|].
    intros E. now injection E.
  - unfold ret. intros E. now injection E.
Qed.

(** C8: two successful calls to SystemNative_GetTimestampResolution in
    states in which the host reports the same timebase write the same
    resolution. *)
Theorem C8_resolution_is_constant (cfg : Config) (wa wb : World)
  ra wa' rb wb' :
  SystemNative_GetTimestampResolution cfg wa = Returned ((1, ra), wa') ->
  SystemNative_GetTimestampResolution cfg wb = Returned ((1, rb), wb') ->
  snd (fst (host_mach_timebase_info (kern wa)))
  = snd (fst (host_mach_timebase_info (kern wb))) ->
  ra = rb.
Proof.
  intros Ra Rb Same.
  apply GetTimestampResolution_reads in Ra.
  apply GetTimestampResolution_reads in Rb.
  subst ra rb. destruct (selected cfg); [reflexivity | | reflexivity].
  simpl. now rewrite Same.
Qed.

(** With assertions on, a failing host query stops the function. *)
Lemma GetTimebaseInfo_stops (cfg : Config) (w : World) :
  HAVE_MACH_TIMEBASE_INFO cfg = true ->
  NDEBUG cfg = false ->
  fst (fst (host_mach_timebase_info (kern w))) <> KERN_SUCCESS ->
  SystemNative_GetTimebaseInfo cfg w = Stopped AssertFailed.
Proof.
  unfold SystemNative_GetTimebaseInfo. intros -> Hdebug Hfail.
  unfold bind at 1, mach_timebase_info.
  destruct (host_mach_timebase_info (kern w)) as [[kr tb] k]. simpl in *.
  unfold bind, assert. rewrite Hdebug.
  destruct (Z.eqb_spec kr KERN_SUCCESS); [contradiction | reflexivity].
Qed.

(** Where the function returns: the value it returns and what it writes. *)
Lemma GetTimebaseInfo_returns (cfg : Config) (w : World) :
  HAVE_MACH_TIMEBASE_INFO cfg = false
  \/ NDEBUG cfg = true
  \/ fst (fst (host_mach_timebase_info (kern w))) = KERN_SUCCESS ->
  exists n d w',
    SystemNative_GetTimebaseInfo cfg w = Returned ((1, n, d), w')
    /\ (HAVE_MACH_TIMEBASE_INFO cfg = false
        \/ fst (fst (host_mach_timebase_info (kern w))) <> KERN_SUCCESS ->
        n = 1 /\ d = 1)
    /\ (HAVE_MACH_TIMEBASE_INFO cfg = true ->
        fst (fst (host_mach_timebase_info (kern w))) = KERN_SUCCESS ->
        n = numer (snd (fst (host_mach_timebase_info (kern w))))
        /\ d = denom (snd (fst (host_mach_timebase_info (kern w)))))
    /\ (denom (snd (fst (host_mach_timebase_info (kern w)))) <> 0 -> d <> 0).
Proof.
  unfold SystemNative_GetTimebaseInfo. intros Hret.
  destruct (HAVE_MACH_TIMEBASE_INFO cfg) eqn:Have.
  - unfold bind at 1, mach_timebase_info.
    destruct (host_mach_timebase_info (kern w)) as [[kr tb] k]. simpl in *.
    unfold bind, assert, ret, stop.
    destruct (Z.eqb_spec kr KERN_SUCCESS) as [->|Hne].
    + rewrite orb_true_r. do 3 eexists. split; [reflexivity|].
      split; [intros [?|?]; congruence|]. split; [now split | auto].
    + destruct Hret as [?|[->|?]]; try congruence. simpl.
      do 3 eexists. split; [reflexivity|]. split; [auto|].
      split; [congruence | lia].
  - do 3 eexists. split; [reflexivity|]. split; [auto|].
    split; [discriminate | lia].
Qed.

(** C10, as amended: SystemNative_GetTimebaseInfo returns 1 and writes both
    out-parameters whenever it returns, and it returns in every case but
    one: in a build whose assertions are on, a failing host query stops at
    the assertion.  When the host query is unavailable, or has failed in a
    build without assertions, it writes numer = 1 and denom = 1; when the
    query succeeds it writes the numer and the denom the host reports; so
    the denominator it writes is not zero provided the denominator the
    host reports is not. *)
Theorem C10_timebase_info (cfg : Config) (w : World) :
  (HAVE_MACH_TIMEBASE_INFO cfg = true ->
   NDEBUG cfg = false ->
   fst (fst (host_mach_timebase_info (kern w))) <> KERN_SUCCESS ->
   SystemNative_GetTimebaseInfo cfg w = Stopped AssertFailed)
  /\ (HAVE_MACH_TIMEBASE_INFO cfg = false
      \/ NDEBUG cfg = true
      \/ fst (fst (host_mach_timebase_info (kern w))) = KERN_SUCCESS ->
      exists n d w',
        SystemNative_GetTimebaseInfo cfg w = Returned ((1, n, d), w')
        /\ (HAVE_MACH_TIMEBASE_INFO cfg = false
            \/ fst (fst (host_mach_timebase_info (kern w))) <> KERN_SUCCESS ->
            n = 1 /\ d = 1)
        /\ (HAVE_MACH_TIMEBASE_INFO cfg = true ->
            fst (fst (host_mach_timebase_info (kern w))) = KERN_SUCCESS ->
            n = numer (snd (fst (host_mach_timebase_info (kern w))))
            /\ d = denom (snd (fst (host_mach_timebase_info (kern w)))))
        /\ (denom (snd (fst (host_mach_timebase_info (kern w)))) <> 0 ->
            d <> 0))
  /\ (forall result n d w',
         SystemNative_GetTimebaseInfo cfg w = Returned ((result, n, d), w') ->
         result = 1).
Proof.
  split; [apply GetTimebaseInfo_stops|].
  split; [apply GetTimebaseInfo_returns|].
  intros result n d w' R.
  destruct (HAVE_MACH_TIMEBASE_INFO cfg) eqn:Have;
    [destruct (NDEBUG cfg) eqn:Nd;
     [|destruct (Z.eq_dec (fst (fst (host_mach_timebase_info (kern w))))
                          KERN_SUCCESS) as [Ok|Fail]]|].
  - destruct (GetTimebaseInfo_returns cfg w) as (n0 & d0 & w0 & E & _);
      [rewrite Nd; auto | congruence].
  - destruct (GetTimebaseInfo_returns cfg w) as (n0 & d0 & w0 & E & _);
      [auto | congruence].
  - rewrite (GetTimebaseInfo_stops cfg w Have Nd Fail) in R. discriminate.
  - destruct (GetTimebaseInfo_returns cfg w) as (n0 & d0 & w0 & E & _);
      [rewrite Have; auto | congruence].
Qed.

End TimestampFacts.

Section ResolutionFacts.

Context {H : Host}.

(** The result is 1 or 0, never -1; 0 goes with a failed probe and a
    resolution of 0; on the clock_gettime and gettimeofday paths 1 goes
    with a resolution that is not 0. *)
Lemma GetTimestampResolution_result (cfg : Config) (w : World) result r w' :
  SystemNative_GetTimestampResolution cfg w = Returned ((result, r), w') ->
  (result = 0 /\ r = 0 /\ probe_fails cfg (kern w))
  \/ (result = 1 /\ (selected cfg <> MachAbsoluteTime -> r <> 0)).
Proof.
  unfold SystemNative_GetTimestampResolution, probe_fails, selected.
  destruct (HAVE_CLOCK_MONOTONIC cfg); [|destruct (HAVE_MACH_ABSOLUTE_TIME cfg)].
  - unfold bind, clock_gettime, ret.
    destruct (host_clock_gettime (kern w)) as [[o ts] k]. simpl.
    destruct o as [|e]; simpl; intros E; injection E as <- <- _.
    + right. split; [reflexivity|]. discriminate.
    + left. repeat split. discriminate.
  - unfold bind at 1, mach_timebase_info.
    destruct (host_mach_timebase_info (kern w)) as [[kr mtid] k]. simpl.
    destruct (Z.eqb_spec kr KERN_SUCCESS) as [->|Hne].
    + unfold bind, udiv64, ret, stop.
      destruct (to_uint64 (numer mtid) =? 0); [discriminate|].
      intros E. injection E as <- _ _. right. split; [reflexivity|]. congruence.
    + unfold ret. intros E. injection E as <- <- _. left. now repeat split.
  - unfold ret. intros E. injection E as <- <- _.
    right. split; [reflexivity|]. discriminate.
Qed.

(** Where numer divides denom the resolution written on the tick-counter
    path is the tick rate. *)
Lemma resolution_exact_when_divisible (cfg : Config) (w : World) r w' :
  selected cfg = MachAbsoluteTime ->
  SystemNative_GetTimestampResolution cfg w = Returned ((1, r), w') ->
  let mtid := snd (fst (host_mach_timebase_info (kern w))) in
  0 < numer mtid < 2 ^ 32 ->
  0 <= denom mtid < 2 ^ 32 ->
  (numer mtid | denom mtid) ->
  (inject_Z r == spec_tick_rate (numer mtid) (denom mtid))%Q.
Proof.
  intros Sel R mtid Hn Hd [c Hc].
  apply GetTimestampResolution_reads in R. rewrite Sel in R.
  fold mtid in R. subst r. cbv zeta.
  rewrite (to_uint64_small (denom mtid)) by lia.
  rewrite (to_uint64_small (numer mtid)) by lia.
  rewrite Hc, Z.div_mul by lia.
  assert (0 <= c < 2 ^ 32) by nia.
  unfold mul64. rewrite to_uint64_small
    by (unfold SecondsToNanoSeconds; lia).
  unfold spec_tick_rate, Qeq, inject_Z. cbn [Qnum Qden].
  rewrite Z2Pos.id by lia. ring.
Qed.

End ResolutionFacts.

(** ** Timestamps on the small host *)

(** C2: on the tick-counter path the division comes before the
    multiplication.  With the timebase 125/3 the host query succeeds, the
    tick rate is 24000000 ticks per second, and the function returns 1 and
    writes 0. *)
Theorem C2_tick_rate_is_truncated :
  SystemNative_GetTimestampResolution Toy.macos
    (Toy.world 0 (Toy.clock true 0 KERN_SUCCESS 125 3))
  = Returned ((1, 0), Toy.world 0 (Toy.clock true 0 KERN_SUCCESS 125 3))
  /\ (spec_tick_rate 125 3 == inject_Z 24000000)%Q
  /\ ~ (inject_Z 0 == spec_tick_rate 125 3)%Q.
Proof.
  split; [reflexivity|]. split; [reflexivity|].
  unfold spec_tick_rate, Qeq. simpl. discriminate.
Qed.

(** C6: with the timebase 125/3 the probe of the tick-counter path
    succeeds, and the function returns 1 with a resolution of 0. *)
Theorem C6_success_with_zero_resolution :
  ~ probe_fails Toy.macos (Toy.clock true 0 KERN_SUCCESS 125 3)
  /\ exists w',
       SystemNative_GetTimestampResolution Toy.macos
         (Toy.world 0 (Toy.clock true 0 KERN_SUCCESS 125 3))
       = Returned ((1, 0), w').
Proof.
  split.
  - intros F. apply F. reflexivity.
  - eexists. reflexivity.
Qed.

(** The claim as first stated fails where the tick count passes 2^64:
    the clock reads 18446744073 s 709551615 ns and then 18446744073 s
    709551616 ns, and the timestamps are 2^64 - 1 and then 0. *)
Lemma C7_counterexample_timestamp_wraps :
  exists wa' wb',
    SystemNative_GetTimestamp Toy.linux
      (Toy.world 0 (Toy.clock true 18446744073709551615 KERN_SUCCESS 1 1))
    = Returned ((1, 18446744073709551615), wa')
    /\ SystemNative_GetTimestamp Toy.linux wa' = Returned ((1, 0), wb')
    /\ reading Toy.linux (Toy.clock true 18446744073709551615 KERN_SUCCESS 1 1)
       = (18446744073, 709551615)
    /\ reading Toy.linux (kern wa') = (18446744073, 709551616)
    /\ reading_le (18446744073, 709551615) (18446744073, 709551616)
    /\ fraction_in_range Toy.linux (18446744073, 709551615)
    /\ fraction_in_range Toy.linux (18446744073, 709551616)
    /\ 0 < 18446744073709551615.
Proof.
  eexists. eexists.
  split; [reflexivity|]. split; [reflexivity|].
  split; [reflexivity|]. split; [reflexivity|].
  unfold reading_le, fraction_in_range. simpl.
  unfold SecondsToNanoSeconds. lia.
Qed.

Lemma C7_witness :
  exists wa' wb',
    SystemNative_GetTimestamp Toy.linux
      (Toy.world 0 (Toy.clock true 5999999999 KERN_SUCCESS 1 1))
    = Returned ((1, 5999999999), wa')
    /\ SystemNative_GetTimestamp Toy.linux wa' = Returned ((1, 6000000000), wb')
    /\ 5999999999 <= 6000000000.
Proof.
  eexists. eexists.
  split; [reflexivity|]. split; [reflexivity|].
  apply (C7_timestamps_do_not_decrease Toy.linux
           (Toy.world 0 (Toy.clock true 5999999999 KERN_SUCCESS 1 1))
           (Toy.world 0 (Toy.clock true 6000000000 KERN_SUCCESS 1 1))
           5999999999
           (Toy.world 0 (Toy.clock true 6000000000 KERN_SUCCESS 1 1))
           6000000000
           (Toy.world 0 (Toy.clock true 6000000001 KERN_SUCCESS 1 1)));
    [reflexivity | reflexivity | | | | | ];
    vm_compute; intuition congruence.
Defined.

Lemma C8_witness :
  exists wa' wb',
    SystemNative_GetTimestampResolution Toy.macos
      (Toy.world 0 (Toy.clock true 10 KERN_SUCCESS 1 2))
    = Returned ((1, 2000000000), wa')
    /\ SystemNative_GetTimestampResolution Toy.macos
         (Toy.world 0 (Toy.clock false 99 KERN_SUCCESS 1 2))
       = Returned ((1, 2000000000), wb')
    /\ 2000000000 = 2000000000.
Proof.
  eexists. eexists.
  split; [reflexivity|]. split; [reflexivity|].
  apply (C8_resolution_is_constant Toy.macos
           (Toy.world 0 (Toy.clock true 10 KERN_SUCCESS 1 2))
           (Toy.world 0 (Toy.clock false 99 KERN_SUCCESS 1 2))
           2000000000 (Toy.world 0 (Toy.clock true 10 KERN_SUCCESS 1 2))
           2000000000 (Toy.world 0 (Toy.clock false 99 KERN_SUCCESS 1 2)));
    reflexivity.
Defined.

(** The claim as first stated fails in two places.  In a build with
    assertions on, a failing host query stops the function at the
    assertion: it does not return 1 and writes nothing.  And a host query
    that succeeds with a denominator of 0 has 0 written as the
    denominator. *)
Lemma C10_counterexample_assertion_and_zero :
  SystemNative_GetTimebaseInfo Toy.macos
    (Toy.world 0 (Toy.clock true 0 5 125 3))
  = Stopped AssertFailed
  /\ SystemNative_GetTimebaseInfo Toy.macos
       (Toy.world 0 (Toy.clock true 0 KERN_SUCCESS 1 0))
     = Returned ((1, 1, 0), Toy.world 0 (Toy.clock true 0 KERN_SUCCESS 1 0)).
Proof. split; reflexivity. Qed.

Lemma C10_witness :
  (exists w',
      SystemNative_GetTimebaseInfo Toy.macos_release
        (Toy.world 0 (Toy.clock true 0 5 125 3))
      = Returned ((1, 1, 1), w'))
  /\ (exists n d w',
         SystemNative_GetTimebaseInfo Toy.macos
           (Toy.world 0 (Toy.clock true 0 KERN_SUCCESS 125 3))
         = Returned ((1, n, d), w')
         /\ n = 125 /\ d = 3 /\ d <> 0)
  /\ SystemNative_GetTimebaseInfo Toy.macos
       (Toy.world 0 (Toy.clock true 0 5 125 3))
     = Stopped AssertFailed.
Proof.
  split; [|split].
  - destruct (proj1 (proj2 (C10_timebase_info Toy.macos_release
                              (Toy.world 0 (Toy.clock true 0 5 125 3)))))
      as (n & d & w' & E & Fallback & _);
      [right; left; reflexivity|].
    destruct Fallback as [-> ->];
      [right; simpl; unfold KERN_SUCCESS; lia|].
    exists w'. exact E.
  - destruct (proj1 (proj2 (C10_timebase_info Toy.macos
                              (Toy.world 0
                                 (Toy.clock true 0 KERN_SUCCESS 125 3)))))
      as (n & d & w' & E & _ & Host & Nonzero);
      [right; right; reflexivity|].
    exists n, d, w'. split; [exact E|].
    destruct (Host eq_refl eq_refl) as [Hn Hd]. simpl in Hn, Hd.
    split; [exact Hn|]. split; [exact Hd|]. apply Nonzero. simpl. lia.
  - apply (proj1 (C10_timebase_info Toy.macos
                    (Toy.world 0 (Toy.clock true 0 5 125 3))));
      [reflexivity | reflexivity | simpl; unfold KERN_SUCCESS; lia].
Defined.

(** ** Beyond the claims: the portability tests *)

Section PortabilityTests.

Context {H : Host}.

(** X2: IS_PORTABILITY_NONE is never true, its mask being 0; and where one
    of IS_PORTABILITY_UNKNOWN, IS_PORTABILITY_DRIVE and IS_PORTABILITY_CASE
    is true and mono_io_portability_helpers is not negative,
    IS_PORTABILITY_SET is true. *)
Theorem X2_portability_tests (cfg : Config) (w : World) :
  IS_PORTABILITY_NONE cfg w = Returned (0, w)
  /\ (forall test v,
         In test [IS_PORTABILITY_UNKNOWN; IS_PORTABILITY_DRIVE;
                  IS_PORTABILITY_CASE] ->
         test cfg w = Returned (v, w) ->
         v <> 0 ->
         0 <= mono_io_portability_helpers w ->
         IS_PORTABILITY_SET cfg w = Returned (true, w)).
Proof.
  split.
  - unfold IS_PORTABILITY_NONE, portability_test, PORTABILITY_NONE, ret.
    destruct (DISABLE_PORTABILITY cfg); [reflexivity|].
    now rewrite Z.land_0_r.
  - intros test v Hin Hv Hnz Hpos.
    assert (exists mask, test = portability_test mask) as [mask ->].
    { simpl in Hin. destruct Hin as [<-|[<-|[<-|[]]]]; eexists; reflexivity. }
    unfold portability_test, IS_PORTABILITY_SET, ret in *.
    destruct (DISABLE_PORTABILITY cfg).
    + injection Hv as <-. contradiction.
    + injection Hv as <-.
      assert (mono_io_portability_helpers w <> 0).
      { intros E. rewrite E, Z.land_0_l in Hnz. contradiction. }
      assert (L : (0 <? mono_io_portability_helpers w) = true)
        by (apply Z.ltb_lt; lia).
      now rewrite L.
Qed.

End PortabilityTests.

Lemma X2_witness :
  IS_PORTABILITY_SET Toy.linux (Toy.world PORTABILITY_CASE (Toy.disk 0 [] [] None))
  = Returned (true, Toy.world PORTABILITY_CASE (Toy.disk 0 [] [] None)).
Proof.
  apply (proj2 (X2_portability_tests Toy.linux
                  (Toy.world PORTABILITY_CASE (Toy.disk 0 [] [] None)))
           IS_PORTABILITY_CASE 4);
    [simpl; auto | reflexivity | lia | simpl; unfold PORTABILITY_CASE; lia].
Defined.

(** ** Beyond the claims: the log of a call that sets file times *)

Section SetFileTimesLog.

Context {H : Host}.
Variable cfg : Config.

Lemma SetFileTimes_log_shape (fuel : nat) (path : string) (t : FileTimes)
  (w : World) r w' :
  SetFileTimes cfg fuel path t w = Returned (r, w') ->
  exists evs, trace w' = evs ++ trace w /\ LogShape cfg t path evs.
Proof.
  intros R. apply SetFileTimes_course in R.
  destruct R as [n o k1 D -> -> | n k1 w2 D L -> -> | n k1 loc w2 n2 o2 k3 D L D2 -> ->].
  - exists (loop_events cfg t path n o). split; [reflexivity|].
    apply ShapeDirect. eapply definitive_not_interrupted; eassumption.
  - unfold looked_up in L.
    destruct (host_find_file path true _) as [[found clobber] k2].
    injection L as -> <-.
    exists (EvFindFile path true None :: loop_events cfg t path n (SysErr ENOENT)).
    split; [reflexivity | apply ShapeMissing].
  - unfold looked_up in L.
    destruct (host_find_file path true _) as [[found clobber] k2].
    injection L as -> <-.
    exists (EvFree loc
            :: loop_events cfg t loc n2 o2
            ++ EvFindFile path true (Some loc)
            :: loop_events cfg t path n (SysErr ENOENT)).
    split.
    + unfold loop_events. cbn [trace settled with_event app].
      rewrite <- !app_assoc. reflexivity.
    + apply ShapeLocated. eapply definitive_not_interrupted; eassumption.
Qed.

Lemma Forall_loop_events (P : Event -> Prop) t p n o :
  (forall o', P (set_times_event cfg t p o')) ->
  Forall P (loop_events cfg t p n o).
Proof.
  intros HP. unfold loop_events. constructor; [apply HP|].
  apply Forall_forall. intros ev Hin. apply repeat_spec in Hin. subst. apply HP.
Qed.

Lemma found_names_loop t p n o : found_names (loop_events cfg t p n o) = [].
Proof.
  unfold found_names, loop_events. simpl.
  replace (found_name (set_times_event cfg t p o)) with (@nil string)
    by now destruct t.
  induction n as [|n IH]; simpl; [reflexivity|].
  replace (found_name (set_times_event cfg t p (SysErr EINTR))) with (@nil string)
    by now destruct t.
  exact IH.
Qed.

Lemma freed_names_loop t p n o : freed_names (loop_events cfg t p n o) = [].
Proof.
  unfold freed_names, loop_events. simpl.
  replace (freed_name (set_times_event cfg t p o)) with (@nil string)
    by now destruct t.
  induction n as [|n IH]; simpl; [reflexivity|].
  replace (freed_name (set_times_event cfg t p (SysErr EINTR))) with (@nil string)
    by now destruct t.
  exact IH.
Qed.

Lemma lookups_loop t p n o : lookups (loop_events cfg t p n o) = [].
Proof.
  unfold lookups, loop_events. simpl. rewrite is_lookup_set_times.
  induction n as [|n IH]; simpl; [reflexivity|].
  now rewrite is_lookup_set_times.
Qed.

(** X3: every system call a returning call has issued is the call of its
    entry point with the converted times, on the path it was given or on the
    name the lookup located; no other call and no other times reach the
    kernel. *)
Theorem X3_calls_carry_the_times (fuel : nat) (path : string) (t : FileTimes)
  (w : World) r w' :
  SetFileTimes cfg fuel path t w = Returned (r, w') ->
  exists evs,
    trace w' = evs ++ trace w
    /\ Forall (fun ev =>
                 forall o, event_outcome ev = Some o ->
                           exists p, ev = set_times_event cfg t p o
                                     /\ (p = path \/ In p (found_names evs)))
              evs.
Proof.
  intros R. apply SetFileTimes_log_shape in R. destruct R as (evs & E & S).
  exists evs. split; [exact E|]. clear E.
  assert (Own : forall p n o (names : list string),
             p = path \/ In p names ->
             Forall (fun ev => forall o0, event_outcome ev = Some o0 ->
                       exists p0, ev = set_times_event cfg t p0 o0
                                  /\ (p0 = path \/ In p0 names))
                    (loop_events cfg t p n o)).
  { intros p n o names Hp. apply Forall_loop_events. intros o' o0 Eo.
    rewrite event_outcome_set_times in Eo. injection Eo as <-.
    exists p. now split. }
  destruct S as [n o I | n | n loc n2 o2 I].
  - apply Own. now left.
  - constructor; [intros o Eo; discriminate Eo|]. apply Own. now left.
  - constructor; [intros o Eo; discriminate Eo|].
    apply Forall_app. split.
    + apply Own. right.
      unfold found_names. cbn [flat_map found_name app].
      rewrite flat_map_app. apply in_or_app. right.
      simpl. now left.
    + constructor; [intros o Eo; discriminate Eo|]. apply Own. now left.
Qed.

(** X4: a returning call has made at most one lookup, on the path it was
    given and with last_exists true, and only after that path was reported
    missing; and it has released exactly the buffers its lookup returned:
    none without a located name, the located name once. *)
Theorem X4_one_lookup_and_its_release (fuel : nat) (path : string)
  (t : FileTimes) (w : World) r w' :
  SetFileTimes cfg fuel path t w = Returned (r, w') ->
  exists evs,
    trace w' = evs ++ trace w
    /\ (lookups evs = []
        \/ exists found,
             lookups evs = [EvFindFile path true found]
             /\ In (set_times_event cfg t path (SysErr ENOENT)) evs)
    /\ freed_names evs = found_names evs
    /\ (List.length (freed_names evs) <= 1)%nat.
Proof.
  intros R. apply SetFileTimes_log_shape in R. destruct R as (evs & E & S).
  exists evs. split; [exact E|]. clear E.
  destruct S as [n o I | n | n loc n2 o2 I].
  - rewrite lookups_loop, freed_names_loop, found_names_loop.
    split; [now left|]. split; [reflexivity | simpl; lia].
  - unfold lookups, freed_names, found_names.
    cbn [filter is_lookup flat_map freed_name found_name app].
    fold (lookups (loop_events cfg t path n (SysErr ENOENT))).
    fold (freed_names (loop_events cfg t path n (SysErr ENOENT))).
    fold (found_names (loop_events cfg t path n (SysErr ENOENT))).
    rewrite lookups_loop, freed_names_loop, found_names_loop.
    split; [|split; [reflexivity | simpl; lia]].
    right. exists None. split; [reflexivity|]. right. now left.
  - unfold lookups, freed_names, found_names.
    cbn [filter is_lookup flat_map freed_name found_name app].
    rewrite filter_app, !flat_map_app.
    cbn [filter is_lookup flat_map freed_name found_name app].
    fold (lookups (loop_events cfg t loc n2 o2)).
    fold (lookups (loop_events cfg t path n (SysErr ENOENT))).
    fold (freed_names (loop_events cfg t loc n2 o2)).
    fold (freed_names (loop_events cfg t path n (SysErr ENOENT))).
    fold (found_names (loop_events cfg t loc n2 o2)).
    fold (found_names (loop_events cfg t path n (SysErr ENOENT))).
    rewrite !lookups_loop, !freed_names_loop, !found_names_loop.
    split; [|split; [reflexivity | simpl; lia]].
    right. exists (Some loc). split; [reflexivity|].
    right. apply in_or_app. right. right. now left.
Qed.

End SetFileTimesLog.

(** ** Beyond the claims: success, exhaustion and builds without fallback *)

Section SetFileTimesMore.

Context {H : Host}.
Variable cfg : Config.

(** X5: when the kernel answers the first system call with success, after
    any number of interruptions, the call returns 0 without a lookup; errno
    is as it was before the call if no system call was interrupted, and is
    left at EINTR otherwise. *)
Theorem X5_success_at_first (fuel : nat) (path : string) (t : FileTimes)
  (w : World) n k1 :
  definitive_after n (host_set_times cfg t path) (kern w) = Some (SysOk, k1) ->
  (n < fuel)%nat ->
  exists w',
    SetFileTimes cfg fuel path t w = Returned (0, w')
    /\ kern w' = k1
    /\ lookups (trace w') = lookups (trace w)
    /\ errno w' = match n with O => errno w | S _ => EINTR end.
Proof.
  intros D Hf.
  exists (settled (set_times_event cfg t path) n SysOk k1 w).
  split; [|split; [reflexivity | split; [apply lookups_settled | reflexivity]]].
  apply (set_times_direct cfg fuel path t w n SysOk k1 D Hf).
  left. discriminate.
Qed.

(** X6: when the path is reported missing, the fallback locates a name and
    the system call on that name succeeds, the call returns 0; the buffer
    of the located name is released after that call, and errno is what the
    lookup left (ENOENT if it left errno alone), or EINTR if the second
    call was interrupted on the way. *)
Theorem X6_success_through_fallback (fuel : nat) (path : string)
  (t : FileTimes) (w : World) n k1 located clobber k2 n2 k3 :
  definitive_after n (host_set_times cfg t path) (kern w)
  = Some (SysErr ENOENT, k1) ->
  (n < fuel)%nat ->
  IS_PORTABILITY_SET cfg w = Returned (true, w) ->
  host_find_file path true k1 = (Some located, clobber, k2) ->
  definitive_after n2 (host_set_times cfg t located) k2 = Some (SysOk, k3) ->
  (n2 < fuel)%nat ->
  exists w' older,
    SetFileTimes cfg fuel path t w = Returned (0, w')
    /\ kern w' = k3
    /\ trace w' = EvFree located :: set_times_event cfg t located SysOk :: older
    /\ errno w' = match n2 with
                  | O => match clobber with Some e => e | None => ENOENT end
                  | S _ => EINTR
                  end.
Proof.
  intros D Hf Hset Hfind D2 Hf2.
  rewrite IS_PORTABILITY_SET_eval in Hset. injection Hset as Hset.
  eexists. eexists. split.
  - apply (set_times_located cfg fuel path t w n k1 located clobber k2 n2 SysOk k3);
      assumption.
  - split; [reflexivity|]. split; [reflexivity|].
    unfold looked_up. simpl. rewrite Hfind. simpl. reflexivity.
Qed.

Lemma retry_exhausted (sys : kernel -> Outcome * kernel) (ev : Outcome -> Event)
  (fuel : nat) : forall (w : World) why,
  retry_interrupted fuel (syscall sys ev) w = Stopped why ->
  why = FuelExhausted /\ interrupted_through fuel sys (kern w) = true.
Proof.
  induction fuel as [|fuel IH]; intros w why R.
  - simpl in R. unfold stop in R. injection R as <-. now split.
  - simpl in R. unfold bind at 1, syscall at 1 in R. simpl.
    destruct (sys (kern w)) as [o1 k1].
    unfold bind at 1, CheckInterrupted, get_errno, ret in R; simpl in R.
    destruct (is_interrupted o1) eqn:I.
    + apply is_interrupted_true in I. subst o1. simpl in R.
      apply IH in R. exact R.
    + assert (C : (libc_result o1 <? 0) && (libc_errno o1 (errno w) =? EINTR)
                  = false).
      { destruct o1 as [|e]; simpl in *; [reflexivity | exact I]. }
      rewrite C in R. discriminate.
Qed.

(** The body stops for lack of fuel only: the kernel has interrupted
    [fuel] times in a row either the system call on the path, or, after the
    path was reported missing and a name was located, the system call on
    that name. *)
Lemma SetFileTimes_stopped (fuel : nat) (path : string)
  (t : FileTimes) (w : World) why :
  SetFileTimes cfg fuel path t w = Stopped why ->
  why = FuelExhausted
  /\ (interrupted_through fuel (host_set_times cfg t path) (kern w) = true
      \/ exists n k1 located clobber k2,
           definitive_after n (host_set_times cfg t path) (kern w)
           = Some (SysErr ENOENT, k1)
           /\ host_find_file path true k1 = (Some located, clobber, k2)
           /\ interrupted_through fuel (host_set_times cfg t located) k2 = true).
Proof.
  rewrite SetFileTimes_eq.
  destruct (retry_set_times cfg fuel t path w) as [[r1 w1]|why1] eqn:R1.
  - apply retry_returned in R1. destruct R1 as (n & o & _ & D & -> & W1).
    destruct ((libc_result o =? -1) && (errno w1 =? ENOENT)
              && portability_set cfg w1) eqn:B; [|discriminate].
    apply andb_prop in B. destruct B as [B _].
    apply andb_prop in B. destruct B as [Br Be]. apply Z.eqb_eq in Be.
    assert (o = SysErr ENOENT) as ->.
    { destruct o as [|e]; [discriminate Br|].
      rewrite W1, settled_errno_failed in Be. now subst. }
    unfold looked_up.
    destruct (host_find_file path true (kern w1)) as [[[located|] clobber] k2]
      eqn:F; [|discriminate].
    destruct (retry_set_times cfg fuel t located _) as [[r2 w3]|why2] eqn:R2;
      [discriminate|].
    intros E. injection E as <-.
    apply retry_exhausted in R2. destruct R2 as [-> I2].
    split; [reflexivity|]. right.
    exists n, (kern w1), located, clobber, k2. repeat split; assumption.
  - intros E. injection E as <-.
    apply retry_exhausted in R1. destruct R1 as [-> I1].
    split; [reflexivity | now left].
Qed.

End SetFileTimesMore.

Section ThroughThePointer.

Context {H : Host}.
Variable cfg : Config.

(** With a pointer that is not null the entry points are their bodies. *)
Lemma SetFileTimes_ptr_not_null (fuel : nat) (path : string) (tp : TimesPtr)
  (t : FileTimes) (w : World) :
  pointee tp = Some t ->
  SetFileTimes_ptr cfg fuel path tp w = SetFileTimes cfg fuel path t w.
Proof.
  destruct tp as [[times|]|[times|]]; simpl; intros E;
    try discriminate; injection E as <-; simpl;
    unfold SystemNative_UTime_ptr, SystemNative_UTimes_ptr, bind, assert,
      not_null, deref, ret;
    rewrite orb_true_r; reflexivity.
Qed.

(** With a null pointer they stop: at the assertion, or, with NDEBUG, at
    the conversion that reads through the pointer. *)
Lemma SetFileTimes_ptr_null (fuel : nat) (path : string) (tp : TimesPtr)
  (w : World) :
  pointee tp = None ->
  SetFileTimes_ptr cfg fuel path tp w
  = Stopped (if NDEBUG cfg then NullDereference else AssertFailed).
Proof.
  destruct tp as [[times|]|[times|]]; simpl; intros E;
    try discriminate;
    unfold SystemNative_UTime_ptr, SystemNative_UTimes_ptr, bind, assert,
      not_null, deref, ret, stop;
    destruct (NDEBUG cfg); reflexivity.
Qed.

(** X7: a call of SystemNative_UTime or SystemNative_UTimes that does not
    return was either handed a null times pointer, and stopped at
    assert(times != NULL) (with NDEBUG, at the read through the pointer),
    or ran out of fuel: the kernel has interrupted [fuel] times in a row
    either the system call on the path, or, after the path was reported
    missing and a name was located, the system call on that name. *)
Theorem X7_stops_are_null_or_interruptions (fuel : nat) (path : string)
  (tp : TimesPtr) (w : World) why :
  SetFileTimes_ptr cfg fuel path tp w = Stopped why ->
  (pointee tp = None
   /\ why = (if NDEBUG cfg then NullDereference else AssertFailed))
  \/ (exists t,
         pointee tp = Some t
         /\ why = FuelExhausted
         /\ (interrupted_through fuel (host_set_times cfg t path) (kern w)
             = true
             \/ exists n k1 located clobber k2,
                  definitive_after n (host_set_times cfg t path) (kern w)
                  = Some (SysErr ENOENT, k1)
                  /\ host_find_file path true k1 = (Some located, clobber, k2)
                  /\ interrupted_through fuel
                       (host_set_times cfg t located) k2 = true)).
Proof.
  intros R. destruct (pointee tp) as [t|] eqn:P.
  - right. exists t. split; [reflexivity|].
    rewrite (SetFileTimes_ptr_not_null fuel path tp t w P) in R.
    apply SetFileTimes_stopped. exact R.
  - left. split; [reflexivity|].
    rewrite (SetFileTimes_ptr_null fuel path tp w P) in R. congruence.
Qed.

End ThroughThePointer.

Section WithoutFallback.

Context {H : Host}.
Variable cfg : Config.

Lemma SetFileTimes_without_fallback (fuel : nat) (path : string)
  (t : FileTimes) (w : World) :
  portability_set cfg w = false ->
  SetFileTimes cfg fuel path t w = retry_set_times cfg fuel t path w.
Proof.
  intros P. rewrite SetFileTimes_eq.
  destruct (retry_set_times cfg fuel t path w) as [[r1 w1]|why] eqn:R1;
    [|reflexivity].
  apply retry_returned in R1. destruct R1 as (n & o & _ & _ & _ & W1).
  replace (portability_set cfg w1) with (portability_set cfg w)
    by (rewrite W1; reflexivity).
  now rewrite P, andb_false_r.
Qed.

(** X8: in a build with DISABLE_PORTABILITY, and in any build while
    mono_io_portability_helpers is not positive, SystemNative_UTime and
    SystemNative_UTimes are the retried system call on the path and nothing
    more, whatever the kernel answers: same result, same errno, same log,
    and the same exhaustion. *)
Theorem X8_without_fallback (fuel : nat) (path : string) (w : World) :
  IS_PORTABILITY_SET cfg w = Returned (false, w) ->
  (forall times,
      SystemNative_UTime cfg fuel path times w
      = retry_interrupted fuel (utime path (ConvertUTimBuf cfg times)) w)
  /\ (forall times,
         SystemNative_UTimes cfg fuel path times w
         = retry_interrupted fuel (utimes path (ConvertTimeValPair cfg times)) w).
Proof.
  intros Hset. rewrite IS_PORTABILITY_SET_eval in Hset. injection Hset as P.
  split; intros times.
  - exact (SetFileTimes_without_fallback fuel path (Seconds times) w P).
  - exact (SetFileTimes_without_fallback fuel path (SecondsAndMicros times) w P).
Qed.

End WithoutFallback.

(** ** Beyond the claims: setting file times on the small host *)

Lemma X3_witness :
  exists w' evs,
    SetFileTimes Toy.linux 2 "A.TXT" (Seconds Toy.now)
      (Toy.world PORTABILITY_CASE
         (Toy.disk 1 ["a.txt"%string] [] (Some "a.txt"%string)))
    = Returned (0, w')
    /\ trace w' = evs ++ []
    /\ Forall (fun ev =>
                 forall o, event_outcome ev = Some o ->
                           exists p,
                             ev = set_times_event Toy.linux (Seconds Toy.now) p o
                             /\ (p = "A.TXT"%string \/ In p (found_names evs)))
              evs.
Proof.
  eexists.
  destruct (X3_calls_carry_the_times Toy.linux 2 "A.TXT" (Seconds Toy.now)
              (Toy.world PORTABILITY_CASE
                 (Toy.disk 1 ["a.txt"%string] [] (Some "a.txt"%string)))
              0 _ eq_refl) as (evs & E & F).
  exists evs. split; [reflexivity|]. split; [exact E | exact F].
Defined.

Lemma X4_witness :
  exists w' evs,
    SetFileTimes Toy.linux 2 "A.TXT" (Seconds Toy.now)
      (Toy.world PORTABILITY_CASE
         (Toy.disk 1 ["a.txt"%string] [] (Some "a.txt"%string)))
    = Returned (0, w')
    /\ trace w' = evs ++ []
    /\ (lookups evs = []
        \/ exists found,
             lookups evs = [EvFindFile "A.TXT" true found]
             /\ In (set_times_event Toy.linux (Seconds Toy.now) "A.TXT"
                      (SysErr ENOENT)) evs)
    /\ freed_names evs = found_names evs
    /\ (List.length (freed_names evs) <= 1)%nat.
Proof.
  eexists.
  destruct (X4_one_lookup_and_its_release Toy.linux 2 "A.TXT" (Seconds Toy.now)
              (Toy.world PORTABILITY_CASE
                 (Toy.disk 1 ["a.txt"%string] [] (Some "a.txt"%string)))
              0 _ eq_refl) as (evs & E & L).
  exists evs. split; [reflexivity|]. split; [exact E | exact L].
Defined.

Lemma X5_witness :
  exists w',
    SetFileTimes Toy.linux 3 "a.txt" (SecondsAndMicros Toy.now_us)
      (Toy.world PORTABILITY_CASE (Toy.disk 2 ["a.txt"%string] [] None))
    = Returned (0, w')
    /\ kern w' = Toy.disk 0 ["a.txt"%string] [] None
    /\ lookups (trace w') = []
    /\ errno w' = EINTR.
Proof.
  apply (X5_success_at_first Toy.linux 3 "a.txt" (SecondsAndMicros Toy.now_us)
           (Toy.world PORTABILITY_CASE (Toy.disk 2 ["a.txt"%string] [] None))
           2 (Toy.disk 0 ["a.txt"%string] [] None));
    [reflexivity | lia].
Defined.

Lemma X6_witness :
  exists w' older,
    SetFileTimes Toy.linux 2 "A.TXT" (Seconds Toy.now)
      (Toy.world PORTABILITY_CASE
         (Toy.disk 1 ["a.txt"%string] [] (Some "a.txt"%string)))
    = Returned (0, w')
    /\ kern w' = Toy.disk 0 ["a.txt"%string] [] (Some "a.txt"%string)
    /\ trace w'
       = EvFree "a.txt"
         :: set_times_event Toy.linux (Seconds Toy.now) "a.txt" SysOk :: older
    /\ errno w' = Toy.EINVAL.
Proof.
  apply (X6_success_through_fallback Toy.linux 2 "A.TXT" (Seconds Toy.now)
           (Toy.world PORTABILITY_CASE
              (Toy.disk 1 ["a.txt"%string] [] (Some "a.txt"%string)))
           1 (Toy.disk 0 ["a.txt"%string] [] (Some "a.txt"%string))
           "a.txt" (Some Toy.EINVAL)
           (Toy.disk 0 ["a.txt"%string] [] (Some "a.txt"%string))
           0 (Toy.disk 0 ["a.txt"%string] [] (Some "a.txt"%string)));
    [reflexivity | lia | reflexivity | reflexivity | reflexivity | lia].
Defined.

Lemma X7_witness :
  SetFileTimes_ptr Toy.linux 2 "a.txt" (SecondsPtr (Some Toy.now))
    (Toy.world 0 (Toy.disk 2 ["a.txt"%string] [] None))
  = Stopped FuelExhausted
  /\ SetFileTimes_ptr Toy.linux 2 "a.txt" (SecondsAndMicrosPtr None)
       (Toy.world 0 (Toy.disk 0 ["a.txt"%string] [] None))
     = Stopped AssertFailed
  /\ ((pointee (SecondsPtr (Some Toy.now)) = None
       /\ FuelExhausted
          = (if NDEBUG Toy.linux then NullDereference else AssertFailed))
      \/ (exists t,
             pointee (SecondsPtr (Some Toy.now)) = Some t
             /\ FuelExhausted = FuelExhausted
             /\ (interrupted_through 2 (host_set_times Toy.linux t "a.txt")
                   (Toy.disk 2 ["a.txt"%string] [] None) = true
                 \/ exists n k1 located clobber k2,
                      definitive_after n
                        (host_set_times Toy.linux t "a.txt")
                        (Toy.disk 2 ["a.txt"%string] [] None)
                      = Some (SysErr ENOENT, k1)
                      /\ host_find_file "a.txt" true k1
                         = (Some located, clobber, k2)
                      /\ interrupted_through 2
                           (host_set_times Toy.linux t located) k2 = true))).
Proof.
  split; [reflexivity|]. split; [reflexivity|].
  apply (X7_stops_are_null_or_interruptions Toy.linux 2 "a.txt"
           (SecondsPtr (Some Toy.now))
           (Toy.world 0 (Toy.disk 2 ["a.txt"%string] [] None)) FuelExhausted).
  reflexivity.
Defined.

Lemma X8_witness :
  SystemNative_UTime Toy.linux 2 "missing.txt" Toy.now
    (Toy.world 0 (Toy.disk 1 [] [] (Some "a.txt"%string)))
  = retry_interrupted 2 (utime "missing.txt" (ConvertUTimBuf Toy.linux Toy.now))
      (Toy.world 0 (Toy.disk 1 [] [] (Some "a.txt"%string))).
Proof.
  apply (proj1 (X8_without_fallback Toy.linux 2 "missing.txt"
                  (Toy.world 0 (Toy.disk 1 [] [] (Some "a.txt"%string)))
                  eq_refl)).
Defined.

(** ** Beyond the claims: timestamps and their resolution *)

Section TimestampMore.

Context {H : Host}.

(** In 64-bit arithmetic the timestamp of a reading is its tick count
    modulo 2^64, whatever the reading. *)
Lemma ticks_congruent (sec frac units : Z) :
  add64 (mul64 (to_uint64 sec) units) (to_uint64 frac)
  = (sec * units + frac) mod 2 ^ 64.
Proof.
  unfold add64, mul64, to_uint64.
  rewrite Z.add_mod_idemp_r, Z.add_mod_idemp_l by lia.
  rewrite <- (Z.add_mod_idemp_l (sec mod 2 ^ 64 * units)) by lia.
  rewrite Z.mul_mod_idemp_l by lia.
  now rewrite Z.add_mod_idemp_l by lia.
Qed.

Lemma GetTimestamp_congruent (cfg : Config) (w : World) t w' :
  SystemNative_GetTimestamp cfg w = Returned ((1, t), w') ->
  t mod 2 ^ 64
  = tick_count (selected cfg) (reading cfg (kern w)) mod 2 ^ 64.
Proof.
  intros R. apply GetTimestamp_reads in R. unfold tick_count.
  destruct (selected cfg) eqn:S; subst t.
  - rewrite ticks_congruent. now rewrite Z.mod_mod by lia.
  - unfold reading. rewrite S. simpl. f_equal. lia.
  - rewrite ticks_congruent. now rewrite Z.mod_mod by lia.
Qed.

(** X9: the difference of two timestamps, taken in 64-bit unsigned
    arithmetic, is the number of ticks between the two readings whenever
    that number is in [0, 2^64): also across the point where the tick count
    passes 2^64, and whatever the sign of tv_sec. *)
Theorem X9_elapsed_ticks (cfg : Config) (wa wb : World) ta wa' tb wb' :
  SystemNative_GetTimestamp cfg wa = Returned ((1, ta), wa') ->
  SystemNative_GetTimestamp cfg wb = Returned ((1, tb), wb') ->
  0 <= tick_count (selected cfg) (reading cfg (kern wb))
       - tick_count (selected cfg) (reading cfg (kern wa)) < 2 ^ 64 ->
  to_uint64 (tb - ta)
  = tick_count (selected cfg) (reading cfg (kern wb))
    - tick_count (selected cfg) (reading cfg (kern wa)).
Proof.
  intros Ra Rb Hel.
  apply GetTimestamp_congruent in Ra. apply GetTimestamp_congruent in Rb.
  unfold to_uint64.
  rewrite Zminus_mod, Ra, Rb, <- Zminus_mod.
  now apply Z.mod_small.
Qed.

(** X10: on the clock_gettime and gettimeofday paths the resolution
    decodes the timestamp: for a reading with its fraction in range,
    tv_sec >= 0 and a tick count below 2^64, the timestamp divided by the
    resolution is tv_sec and the remainder is tv_nsec (tv_usec). *)
Theorem X10_resolution_decodes_timestamp (cfg : Config) (w w0 : World)
  t w' res w0' :
  SystemNative_GetTimestamp cfg w = Returned ((1, t), w') ->
  SystemNative_GetTimestampResolution cfg w0 = Returned ((1, res), w0') ->
  selected cfg <> MachAbsoluteTime ->
  fraction_in_range cfg (reading cfg (kern w)) ->
  ticks_fit cfg (reading cfg (kern w)) ->
  t / res = fst (reading cfg (kern w))
  /\ t mod res = snd (reading cfg (kern w)).
Proof.
  intros Rt Rr Sel Fr Fit.
  apply GetTimestamp_reads in Rt. apply GetTimestampResolution_reads in Rr.
  unfold fraction_in_range, ticks_fit in *.
  destruct (reading cfg (kern w)) as [sec frac]. simpl in *.
  destruct (selected cfg); [| contradiction |]; simpl in *;
    rewrite ticks_exact in Rt
      by (unfold SecondsToNanoSeconds, SecondsToMicroSeconds in *; lia);
    subst t res; split.
  - symmetry. apply Z.div_unique with (r := frac); lia.
  - symmetry. apply Z.mod_unique with (q := sec); lia.
  - symmetry. apply Z.div_unique with (r := frac); lia.
  - symmetry. apply Z.mod_unique with (q := sec); lia.
Qed.

(** The resolution written on the tick-counter path, for a timebase of two
    32-bit numbers: the multiplication does not wrap. *)
Lemma resolution_of_timebase (cfg : Config) (w : World) r w' :
  selected cfg = MachAbsoluteTime ->
  SystemNative_GetTimestampResolution cfg w = Returned ((1, r), w') ->
  let mtid := snd (fst (host_mach_timebase_info (kern w))) in
  0 < numer mtid < 2 ^ 32 ->
  0 <= denom mtid < 2 ^ 32 ->
  r = SecondsToNanoSeconds * (denom mtid / numer mtid).
Proof.
  intros Sel R mtid Hn Hd.
  apply GetTimestampResolution_reads in R. rewrite Sel in R.
  fold mtid in R. subst r. cbv zeta.
  rewrite (to_uint64_small (denom mtid)) by lia.
  rewrite (to_uint64_small (numer mtid)) by lia.
  assert (0 <= denom mtid / numer mtid <= denom mtid).
  { split; [apply Z.div_pos; lia|]. apply Z.div_le_upper_bound; nia. }
  unfold mul64. apply to_uint64_small.
  unfold SecondsToNanoSeconds. lia.
Qed.

(** X12: on the tick-counter path, for a timebase of two 32-bit numbers
    with numer > 0, the resolution written is the tick rate
    10^9 * denom / numer exactly when numer divides denom. *)
Theorem X12_rate_exact_iff_divisible (cfg : Config) (w : World) r w' :
  selected cfg = MachAbsoluteTime ->
  SystemNative_GetTimestampResolution cfg w = Returned ((1, r), w') ->
  0 < numer (snd (fst (host_mach_timebase_info (kern w)))) < 2 ^ 32 ->
  0 <= denom (snd (fst (host_mach_timebase_info (kern w)))) < 2 ^ 32 ->
  (inject_Z r
   == spec_tick_rate (numer (snd (fst (host_mach_timebase_info (kern w)))))
                     (denom (snd (fst (host_mach_timebase_info (kern w))))))%Q
  <-> (numer (snd (fst (host_mach_timebase_info (kern w))))
       | denom (snd (fst (host_mach_timebase_info (kern w))))).
Proof.
  intros Sel R Hn Hd.
  pose proof (resolution_of_timebase cfg w r w' Sel R Hn Hd) as E.
  cbv zeta in E.
  set (n := numer (snd (fst (host_mach_timebase_info (kern w))))) in *.
  set (d := denom (snd (fst (host_mach_timebase_info (kern w))))) in *.
  split.
  - unfold spec_tick_rate, Qeq, inject_Z. cbn [Qnum Qden].
    rewrite Z2Pos.id by lia. intros Q. subst r.
    exists (d / n). unfold SecondsToNanoSeconds in Q. lia.
  - intros D.
    exact (resolution_exact_when_divisible cfg w r w' Sel R Hn Hd D).
Qed.

(** X13: on the tick-counter path, for a timebase of two 32-bit numbers
    with numer > 0, the multiplication by 10^9 does not wrap: the
    resolution written is 10^9 times the whole part of denom / numer, a
    multiple of 10^9 below 2^62, and it is 0 exactly when denom < numer. *)
Theorem X13_resolution_on_tick_counter (cfg : Config) (w : World) r w' :
  selected cfg = MachAbsoluteTime ->
  SystemNative_GetTimestampResolution cfg w = Returned ((1, r), w') ->
  0 < numer (snd (fst (host_mach_timebase_info (kern w)))) < 2 ^ 32 ->
  0 <= denom (snd (fst (host_mach_timebase_info (kern w)))) < 2 ^ 32 ->
  r = SecondsToNanoSeconds
      * (denom (snd (fst (host_mach_timebase_info (kern w))))
         / numer (snd (fst (host_mach_timebase_info (kern w)))))
  /\ 0 <= r < 2 ^ 62
  /\ (r = 0 <-> denom (snd (fst (host_mach_timebase_info (kern w))))
                < numer (snd (fst (host_mach_timebase_info (kern w))))).
Proof.
  intros Sel R Hn Hd.
  pose proof (resolution_of_timebase cfg w r w' Sel R Hn Hd) as E.
  cbv zeta in E.
  set (n := numer (snd (fst (host_mach_timebase_info (kern w))))) in *.
  set (d := denom (snd (fst (host_mach_timebase_info (kern w))))) in *.
  assert (B : 0 <= d / n <= d).
  { split; [apply Z.div_pos; lia|]. apply Z.div_le_upper_bound; nia. }
  split; [exact E|]. split.
  - subst r. unfold SecondsToNanoSeconds. lia.
  - subst r. unfold SecondsToNanoSeconds. split.
    + intros Z0. assert (d / n = 0) as Q by lia.
      apply Z.div_small_iff in Q; lia.
    + intros Lt. rewrite Z.div_small by lia. reflexivity.
Qed.

End TimestampMore.

(** ** Beyond the claims: timestamps on the small host *)

Lemma X9_witness :
  exists wa' wb',
    SystemNative_GetTimestamp Toy.linux
      (Toy.world 0 (Toy.clock true 18446744073709551615 KERN_SUCCESS 1 1))
    = Returned ((1, 18446744073709551615), wa')
    /\ SystemNative_GetTimestamp Toy.linux
         (Toy.world 0 (Toy.clock true 18446744073709551620 KERN_SUCCESS 1 1))
       = Returned ((1, 4), wb')
    /\ to_uint64 (4 - 18446744073709551615) = 5.
Proof.
  eexists. eexists. split; [reflexivity|]. split; [reflexivity|].
  apply (X9_elapsed_ticks Toy.linux
           (Toy.world 0 (Toy.clock true 18446744073709551615 KERN_SUCCESS 1 1))
           (Toy.world 0 (Toy.clock true 18446744073709551620 KERN_SUCCESS 1 1))
           18446744073709551615
           (Toy.world 0 (Toy.clock true 18446744073709551616 KERN_SUCCESS 1 1))
           4
           (Toy.world 0 (Toy.clock true 18446744073709551621 KERN_SUCCESS 1 1)));
    [reflexivity | reflexivity | vm_compute; intuition congruence].
Defined.

Lemma X10_witness :
  5999999999 / 1000000000 = 5 /\ 5999999999 mod 1000000000 = 999999999.
Proof.
  apply (X10_resolution_decodes_timestamp Toy.linux
           (Toy.world 0 (Toy.clock true 5999999999 KERN_SUCCESS 1 1))
           (Toy.world 0 (Toy.clock true 0 KERN_SUCCESS 1 1))
           5999999999
           (Toy.world 0 (Toy.clock true 6000000000 KERN_SUCCESS 1 1))
           1000000000
           (Toy.world 0 (Toy.clock true 1 KERN_SUCCESS 1 1)));
    [reflexivity | reflexivity | discriminate
    | vm_compute; intuition congruence | vm_compute; intuition congruence].
Defined.

Lemma X12_witness :
  (inject_Z 2000000000 == spec_tick_rate 1 2)%Q <-> (1 | 2).
Proof.
  apply (X12_rate_exact_iff_divisible Toy.macos
           (Toy.world 0 (Toy.clock true 0 KERN_SUCCESS 1 2))
           2000000000
           (Toy.world 0 (Toy.clock true 0 KERN_SUCCESS 1 2)));
    [reflexivity | reflexivity | simpl; lia | simpl; lia].
Defined.

Lemma X13_witness :
  0 = SecondsToNanoSeconds * (3 / 125)
  /\ 0 <= 0 < 2 ^ 62
  /\ (0 = 0 <-> 3 < 125).
Proof.
  apply (X13_resolution_on_tick_counter Toy.macos
           (Toy.world 0 (Toy.clock true 0 KERN_SUCCESS 125 3))
           0
           (Toy.world 0 (Toy.clock true 0 KERN_SUCCESS 125 3)));
    [reflexivity | reflexivity | simpl; lia | simpl; lia].
Defined.
